(** * A model of the GitHub Models gateway (src/kire.js)

    The gateway is one Express application: a fixed registry of model
    identifiers, one helper that posts a chat completion request to the
    remote inference endpoint, and a handful of GET routes built on it.

    The development has three layers.
    - [JS]: the fragment of ECMAScript the source relies on: IEEE binary64
      numbers, strings with [trim], [split], [startsWith], [parseFloat] and
      [parseInt], JSON-like values with property reads, truthiness and
      [typeof], and completions (a value or a thrown [Error]).
    - [Eff]: a state monad with exceptions in which the effectful code is
      written; the state survives a throw, as it does in JavaScript.
    - [Kire]: the source itself, function by function, followed by the
      properties proved about it. *)

From Stdlib Require Import ZArith NArith List String Ascii Bool Lia SpecFloat.
From Stdlib Require Import DecimalString Permutation.
Import ListNotations.
#[local] Set Warnings "-register-all".
Local Open Scope string_scope.
Local Open Scope list_scope.

(* ================================================================== *)
(** * The ECMAScript fragment                                          *)
(* ================================================================== *)

Module JS.

(** ** Numbers

    A JavaScript Number is an IEEE 754 binary64 value.  [spec_float] is the
    Standard Library's inductive description of such a value (sign, mantissa
    and exponent, two zeros, two infinities and one NaN), and its rounding
    functions are round-to-nearest-even, the mode ECMAScript uses. *)

Definition number : Type := spec_float.

Definition prec : Z := 53.
Definition emax : Z := 1024.

Definition NaN : number := S754_nan.

Definition isNaN (x : number) : bool :=
  match x with S754_nan => true | _ => false end.

(** The Number nearest to an integer. *)
Definition number_of_Z (z : Z) : number := binary_normalize prec emax z 0 false.

(** The Number nearest to [(-1)^neg * m * 10^e10], the value of a decimal
    literal with digits [m] and decimal exponent [e10]. *)
Definition number_of_decimal (neg : bool) (m : N) (e10 : Z) : number :=
  match m with
  | N0 => S754_zero neg
  | Npos p =>
      match e10 with
      | Zneg k =>
          SFdiv prec emax (S754_finite neg p 0)
                (S754_finite false (Pos.pow 10 k) 0)
      | _ => binary_round prec emax neg (p * Z.to_pos (10 ^ e10)) 0
      end
  end.

(** [x <= y] on Numbers; false as soon as one side is NaN. *)
Definition num_leb (x y : number) : bool := SFleb x y.

(** [a - b] on Numbers. *)
Definition num_sub (a b : number) : number := SFsub prec emax a b.

(** ** Strings

    A [string] stands for a JavaScript string whose code units are all
    below 256; an [ascii] is one such code unit. *)

Definition code (c : ascii) : N := N_of_ascii c.

(** WhiteSpace and LineTerminator code units below 256: TAB, LF, VT, FF,
    CR, SP and NBSP. *)
Definition is_whitespace (c : ascii) : bool :=
  let n := code c in
  ((9 <=? n) && (n <=? 13) || (n =? 32) || (n =? 160))%N.

Fixpoint trimStart (s : string) : string :=
  match s with
  | String c r => if is_whitespace c then trimStart r else s
  | EmptyString => EmptyString
  end.

Fixpoint trimEnd (s : string) : string :=
  match s with
  | String c r =>
      match trimEnd r with
      | EmptyString => if is_whitespace c then EmptyString else String c EmptyString
      | r' => String c r'
      end
  | EmptyString => EmptyString
  end.

Definition trim (s : string) : string := trimEnd (trimStart s).

(** [s.split(sep)] for a one-character separator: never the empty list. *)
Fixpoint split (sep : ascii) (s : string) : list string :=
  match s with
  | EmptyString => [EmptyString]
  | String c r =>
      if Ascii.eqb c sep then EmptyString :: split sep r
      else match split sep r with
           | piece :: pieces => String c piece :: pieces
           | [] => [String c EmptyString]
           end
  end.

(** [l.join(sep)]. *)
Definition join (sep : string) (l : list string) : string := String.concat sep l.

(** [s.startsWith(p)]: code unit by code unit, hence case-sensitive. *)
Definition startsWith (s p : string) : bool := String.prefix p s.

(** [list.includes(x)] on a list of strings. *)
Definition includes (l : list string) (x : string) : bool :=
  existsb (String.eqb x) l.

(** ** Reading numerals *)

Definition digit_value (radix : N) (c : ascii) : option N :=
  let n := code c in
  let d :=
    if ((48 <=? n) && (n <=? 57))%N then Some (n - 48)%N
    else if ((97 <=? n) && (n <=? 122))%N then Some (n - 87)%N
    else if ((65 <=? n) && (n <=? 90))%N then Some (n - 55)%N
    else None in
  match d with
  | Some v => if (v <? radix)%N then Some v else None
  | None => None
  end.

(** Reads the longest run of radix-[radix] digits at the front of [s],
    continuing the value [acc]; returns the value, the number of digits
    read and the rest of the string. *)
Fixpoint read_digits (radix : N) (acc : N) (count : nat) (s : string)
  : N * nat * string :=
  match s with
  | String c r =>
      match digit_value radix c with
      | Some d => read_digits radix (acc * radix + d)%N (S count) r
      | None => (acc, count, s)
      end
  | EmptyString => (acc, count, s)
  end.

(** An optional leading sign: [true] for a minus. *)
Definition read_sign (s : string) : bool * string :=
  match s with
  | String "-" r => (true, r)
  | String "+" r => (false, r)
  | _ => (false, s)
  end.

(** The ExponentPart of a StrDecimalLiteral: its value and what follows
    it.  An incomplete exponent ([e] with no digit after it) is not part of
    the literal. *)
Definition read_exponent (s : string) : Z * string :=
  match s with
  | String c r =>
      if (Ascii.eqb c "e" || Ascii.eqb c "E")%char then
        let '(eneg, r1) := read_sign r in
        let '(ev, n, r2) := read_digits 10 0 0 r1 in
        match n with
        | O => (0%Z, s)
        | _ => (if eneg then (- Z.of_N ev)%Z else Z.of_N ev, r2)
        end
      else (0%Z, s)
  | EmptyString => (0%Z, s)
  end.

(** The longest prefix of [s] that is a StrDecimalLiteral (an optional
    sign, then [Infinity] or decimal digits with an optional fraction and
    exponent): its value and the rest of [s]; [None] when no prefix is
    one. *)
Definition read_decimal_literal (s : string) : option (number * string) :=
  let '(neg, s1) := read_sign s in
  if startsWith s1 "Infinity" then
    Some (S754_infinity neg, substring 8 (String.length s1 - 8) s1)
  else
    let '(ip, ni, s2) := read_digits 10 0 0 s1 in
    let '(m, nf, s3) :=
      match s2 with
      | String "." r => read_digits 10 ip 0 r
      | _ => (ip, O, s2)
      end in
    match (ni + nf)%nat with
    | O => None
    | _ =>
        let '(e, s4) := read_exponent s3 in
        Some (number_of_decimal neg m (e - Z.of_nat nf), s4)
    end.

(** [parseFloat(s)]: the value of the longest prefix of the trimmed string
    that is a StrDecimalLiteral, NaN when there is none. *)
Definition parseFloat (s : string) : number :=
  match read_decimal_literal (trimStart s) with
  | Some (v, _) => v
  | None => NaN
  end.


(** [parseInt(s)] with no radix argument: radix 16 after a [0x] or [0X]
    prefix, radix 10 otherwise; NaN when no digit can be read. *)
Definition parseInt (s : string) : number :=
  let '(neg, s1) := read_sign (trimStart s) in
  let '(radix, s2) :=
    match s1 with
    | String "0" (String x r) =>
        if (Ascii.eqb x "x" || Ascii.eqb x "X")%char then (16%N, r) else (10%N, s1)
    | _ => (10%N, s1)
    end in
  let '(v, n, _) := read_digits radix 0 0 s2 in
  match n with
  | O => NaN
  | _ => number_of_decimal neg v 0
  end.

(** ** Values

    The values the gateway handles: what [JSON.parse] produces, what the
    object literals of the source build, and [undefined] for a property
    that is not there.  An object is the list of its own properties in
    insertion order. *)

Inductive value : Type :=
| VUndefined
| VNull
| VBool (b : bool)
| VNum (n : number)
| VStr (s : string)
| VArr (items : list value)
| VObj (fields : list (string * value)).

(** ToBoolean. *)
Definition truthy (v : value) : bool :=
  match v with
  | VUndefined | VNull => false
  | VBool b => b
  | VNum (S754_zero _) | VNum S754_nan => false
  | VNum _ => true
  | VStr EmptyString => false
  | VStr _ => true
  | VArr _ | VObj _ => true
  end.

Definition nullish (v : value) : bool :=
  match v with VUndefined | VNull => true | _ => false end.

(** [a || b] *)
Definition or_else (a b : value) : value := if truthy a then a else b.

Fixpoint lookup (k : string) (fields : list (string * value)) : option value :=
  match fields with
  | [] => None
  | (k', v) :: rest => if String.eqb k k' then Some v else lookup k rest
  end.

(** [k in o], own properties only. *)
Definition has_field (o : value) (k : string) : bool :=
  match o with
  | VObj fields => match lookup k fields with Some _ => true | None => false end
  | _ => false
  end.

(** ** Completions: a value, or a thrown [Error] *)

Record Error : Type := mkError { name : string; message : string }.

Inductive completion (A : Type) : Type :=
| Normal (a : A)
| Throw (e : Error).
Arguments Normal {A} a.
Arguments Throw {A} e.

Definition TypeError (msg : string) : Error := mkError "TypeError" msg.

(** Sequencing of expressions that may throw. *)
Definition and_then {A B} (c : completion A) (k : A -> completion B)
  : completion B :=
  match c with
  | Normal a => k a
  | Throw e => Throw e
  end.

(** [v.k] for an identifier [k] that is not an array index.  Reading a
    property of [null] or [undefined] throws (the message is V8's); the
    prototypes hold no data property under the names the source reads, so
    a name that is not an own property reads as [undefined]. *)
Definition get (v : value) (k : string) : completion value :=
  match v with
  | VUndefined =>
      Throw (TypeError ("Cannot read properties of undefined (reading '" ++ k ++ "')"))
  | VNull =>
      Throw (TypeError ("Cannot read properties of null (reading '" ++ k ++ "')"))
  | VObj fields =>
      Normal match lookup k fields with Some x => x | None => VUndefined end
  | VArr items =>
      Normal (if String.eqb k "length"
              then VNum (number_of_Z (Z.of_nat (List.length items)))
              else VUndefined)
  | VStr s =>
      Normal (if String.eqb k "length"
              then VNum (number_of_Z (Z.of_nat (String.length s)))
              else VUndefined)
  | VBool _ | VNum _ => Normal VUndefined
  end.

(** The property key of an array index. *)
Definition index_key (i : nat) : string := NilZero.string_of_uint (Nat.to_uint i).

(** [v[i]] for an array index [i]. *)
Definition get_index (v : value) (i : nat) : completion value :=
  match v with
  | VUndefined | VNull => get v (index_key i)
  | VArr items => Normal (nth i items VUndefined)
  | VStr s =>
      Normal match String.get i s with
             | Some c => VStr (String c EmptyString)
             | None => VUndefined
             end
  | VObj _ => get v (index_key i)
  | VBool _ | VNum _ => Normal VUndefined
  end.

(** ** Query values

    What Express puts under a key of [req.query]: a string, or, for a
    repeated or bracketed key, an array or an object of such values.  A key
    that is absent reads as [undefined], here [None]. *)

Inductive qvalue : Type :=
| QStr (s : string)
| QArr (items : list qvalue)
| QObj (fields : list (string * qvalue)).

Definition query_param : Type := option qvalue.

Definition q_truthy (p : query_param) : bool :=
  match p with
  | None => false
  | Some (QStr EmptyString) => false
  | Some _ => true
  end.

(** [typeof p === 'string'] *)
Definition is_string (p : query_param) : bool :=
  match p with Some (QStr _) => true | _ => false end.

(** The first thrown error of a list of completions, or all their
    values. *)
Fixpoint all_values {A} (l : list (completion A)) : completion (list A) :=
  match l with
  | [] => Normal []
  | c :: rest =>
      and_then c (fun a => and_then (all_values rest) (fun r => Normal (a :: r)))
  end.

(** An own property of a query object. *)
Definition own_key (k : string) (fields : list (string * qvalue)) : bool :=
  existsb (fun kv => String.eqb k (fst kv)) fields.

(** ToString, as [parseFloat] and [parseInt] apply it to their argument.
    An array is joined with commas, its elements converted in turn.  An
    object is converted through its [toString]: the one it inherits gives
    [[object Object]]; an own property of that name is a query value, not a
    function, so the conversion falls back on the inherited [valueOf],
    which returns the object, and ends in a TypeError (the message is
    V8's).  Express 4 parses [?temperature[toString]=x] to such an
    object. *)
Fixpoint ToString (v : qvalue) : completion string :=
  match v with
  | QStr s => Normal s
  | QArr items =>
      and_then (all_values (List.map ToString items))
               (fun pieces => Normal (join "," pieces))
  | QObj fields =>
      if own_key "toString" fields
      then Throw (TypeError "Cannot convert object to primitive value")
      else Normal "[object Object]"
  end.

(** ** JSON text

    What [JSON.parse] would read back from [JSON.stringify v]: the value
    the text on the wire denotes.  A Number that is NaN or infinite is
    written [null], and a negative zero [0]; [undefined] is written [null]
    in an array and left out of an object; [undefined] itself has no
    text.  (Objects with integer-like keys, which are written in another
    order, are not handled.) *)



End JS.

(* ================================================================== *)
(** * Effects: state that survives a throw                             *)
(* ================================================================== *)

Module Eff.
Import JS.

Definition M (S A : Type) : Type := S -> completion A * S.

Definition ret {S A} (a : A) : M S A := fun s => (Normal a, s).

Definition bind {S A B} (c : M S A) (k : A -> M S B) : M S B :=
  fun s =>
    match c s with
    | (Normal a, s') => k a s'
    | (Throw e, s') => (Throw e, s')
    end.

(** [await] of a promise that has settled with [c]; also the result of an
    expression that may throw. *)
Definition settle {S A} (c : completion A) : M S A := fun s => (c, s).

(** [try { body } catch (error) { handler }] *)
Definition try_catch {S A} (body : M S A) (handler : Error -> M S A) : M S A :=
  fun s =>
    match body s with
    | (Normal a, s') => (Normal a, s')
    | (Throw e, s') => handler e s'
    end.

(** Calling an async function: the call itself does not throw, it yields
    a promise, identified here with the completion it settles with. *)
Definition async {S A} (c : M S A) : M S (completion A) :=
  fun s => let '(r, s') := c s in (Normal r, s').

(** [Promise.all]: the values in the order of the promises, or the
    rejection of a promise that rejects. *)
Fixpoint Promise_all {A} (promises : list (completion A)) : completion (list A) :=
  match promises with
  | [] => Normal []
  | Throw e :: _ => Throw e
  | Normal a :: rest =>
      match Promise_all rest with
      | Normal l => Normal (a :: l)
      | Throw e => Throw e
      end
  end.

(** [l.map(f)] for an effectful [f]; stops at the first throw. *)
Fixpoint mapM {S A B} (f : A -> M S B) (l : list A) : M S (list B) :=
  match l with
  | [] => ret []
  | a :: rest =>
      bind (f a) (fun b => bind (mapM f rest) (fun bs => ret (b :: bs)))
  end.

Module Notations.
  Declare Scope eff_scope.
  Delimit Scope eff_scope with eff.
  Notation "x <- c ;; k" := (bind c (fun x => k))
    (at level 61, c at next level, right associativity) : eff_scope.
  Notation "c ;;; k" := (bind c (fun _ => k))
    (at level 61, right associativity) : eff_scope.
End Notations.

End Eff.

(* ================================================================== *)
(** * The gateway                                                      *)
(* ================================================================== *)

Module Kire.
Import JS Eff Eff.Notations.
Local Open Scope eff_scope.

(** ** The registry (lines 21-46) *)

Definition MODELS : list string :=
  [ "gpt-4o";
    "gpt-4o-mini";
    "AI21-Jamba-Instruct";
    "Cohere-command-r";
    "Cohere-command-r-plus";
    "Cohere-embed-v3-english";
    "Cohere-embed-v3-multilingual";
    "Meta-Llama-3-70B-Instruct";
    "Meta-Llama-3-8B-Instruct";
    "Meta-Llama-3.1-405B-Instruct";
    "Meta-Llama-3.1-70B-Instruct";
    "Meta-Llama-3.1-8B-Instruct";
    "Meta-Llama-3.2-11B-Vision-Instruct";
    "Meta-Llama-3.2-1B-Instruct";
    "Meta-Llama-3.2-3B-Instruct";
    "Meta-Llama-3.2-90B-Vision-Instruct";
    "Mistral-large-2407";
    "Mistral-Nemo";
    "Mistral-small";
    "Phi-3.5-mini-instruct";
    "Phi-3.5-MoE-instruct";
    "Phi-3.5-vision-instruct";
    "Qwen2.5-72B-Instruct";
    "Qwen2.5-Coder-32B-Instruct" ].

(** ** Publisher of a model (lines 221-230) *)

Definition getPublisher (modelId : string) : string :=
  if startsWith modelId "gpt-" then "OpenAI"
  else if startsWith modelId "Meta-Llama" then "Meta"
  else if startsWith modelId "Mistral" then "Mistral"
  else if startsWith modelId "Phi-" then "Microsoft"
  else if startsWith modelId "Cohere" then "Cohere"
  else if startsWith modelId "AI21" then "AI21 Labs"
  else if startsWith modelId "Qwen" then "Qwen"
  else "Unknown".

(** ** The world of one helper invocation

    One invocation of [callGitHubModel] reads the clock, posts one request
    and gets what the remote endpoint makes of it.  An [Exchange] fixes all
    the world decides for that invocation: the successive readings of
    [Date.now()] (integral Numbers, kept as the integers they denote) and
    how the [fetch] promise settles.  Every [fetch] settles: a remote that
    never answers leaves the invocation pending and is outside the model. *)

Record Response : Type := mkResponse {
  ok : bool;                      (* response.ok: status in 200..299 *)
  text : completion string;       (* await response.text() *)
  json : completion value         (* await response.json() *)
}.

Record Exchange : Type := mkExchange {
  clock : nat -> Z;               (* the n-th reading of Date.now() *)
  reply : completion Response     (* await fetch(...) *)
}.

(** What [fetch] is given.  [body] is the value handed to
    [JSON.stringify]; the text on the wire is its serialisation, which
    writes a Number that is NaN or infinite as [null]. *)
Record Request : Type := mkRequest {
  url : string;
  method : string;
  headers : list (string * string);
  body : value
}.

Record Invocation : Type := mkInvocation {
  exchange : Exchange;
  clock_reads : nat;              (* readings of the clock taken so far *)
  posted : list Request           (* requests handed to fetch so far *)
}.

Definition Date_now : M Invocation Z :=
  fun i =>
    (Normal (clock (exchange i) (clock_reads i)),
     mkInvocation (exchange i) (S (clock_reads i)) (posted i)).

Definition fetch (url : string) (method : string)
    (headers : list (string * string)) (body : value) : M Invocation Response :=
  fun i =>
    (reply (exchange i),
     mkInvocation (exchange i) (clock_reads i)
                  (posted i ++ [mkRequest url method headers body])).

(** ** The world of one HTTP request

    A handler may invoke the helper several times; its [k]-th invocation
    (counting from 0, in the order the requests are posted) lives in the
    [k]-th exchange of the [network].  [outbound] is the trace of the
    requests posted while the handler runs. *)

Record Server : Type := mkServer {
  network : nat -> Exchange;
  outbound : list Request
}.

(** Runs a helper invocation to its settlement.  An invocation runs
    without interruption up to its [await fetch], so requests are posted in
    the order of the invocations; what follows depends on its own exchange
    only, so the order in which concurrent invocations resume is not
    observable. *)
Definition invoke {A} (c : M Invocation A) : M Server A :=
  fun w =>
    let i0 := mkInvocation (network w (List.length (outbound w))) 0 [] in
    let '(r, i1) := c i0 in
    (r, mkServer (network w) (outbound w ++ posted i1)).

(** What Express hands to a handler, and what the handler sends back
    ([res.status(s).json(b)]; [payload] is the value given to [res.json]). *)
Record Query : Type := mkQuery {
  q : query_param;
  models : query_param;
  temperature : query_param;
  max_tokens : query_param
}.

Record HttpRequest : Type := mkHttpRequest {
  modelId_param : string;         (* req.params.modelId *)
  query : Query                   (* req.query *)
}.

Record HttpResponse : Type := mkHttpResponse {
  status : nat;
  payload : value
}.

(** [res.json(b)] with the default status. *)
Definition res_json (b : value) : HttpResponse := mkHttpResponse 200 b.

(** [!p || typeof p !== 'string'] fails exactly on a non-empty string;
    [required_string p] is that string. *)
Definition required_string (p : query_param) : option string :=
  if negb (q_truthy p) || negb (is_string p) then None
  else match p with Some (QStr s) => Some s | _ => None end.

(** The argument of [parseFloat] and [parseInt] converted to a string,
    which throws for an object with an own [toString]. *)
Definition param_text (p : query_param) : completion string :=
  match p with Some v => ToString v | None => Normal "undefined" end.

(** [parseFloat(p)] and [parseInt(p)] on a query value. *)
Definition parseFloat_param (p : query_param) : completion number :=
  and_then (param_text p) (fun text => Normal (parseFloat text)).

Definition parseInt_param (p : query_param) : completion number :=
  and_then (param_text p) (fun text => Normal (parseInt text)).

(** A default parameter value: used when the argument is [undefined]. *)
Definition default_to {A} (d : A) (arg : option A) : A :=
  match arg with Some a => a | None => d end.

Definition number_0_7 : number := number_of_decimal false 7 (-1).
Definition number_1000 : number := number_of_Z 1000.

Definition endpoint : string :=
  "https://models.inference.ai.azure.com/chat/completions".

(** [result.choices?.[0]?.message?.content] (line 85): an optional link
    ends the whole chain with [undefined] when what it is applied to is
    [null] or [undefined]. *)
Definition first_content (result : value) : completion value :=
  and_then (get result "choices") (fun choices =>
  if nullish choices then Normal VUndefined else
  and_then (get_index choices 0) (fun first =>
  if nullish first then Normal VUndefined else
  and_then (get first "message") (fun msg =>
  if nullish msg then Normal VUndefined else
  get msg "content"))).

Section Gateway.

(** [process.env.GITHUB_TOKEN || <embedded default>], fixed at start-up
    (line 18). *)
Variable GITHUB_TOKEN : string.

(** ** The outbound call helper (lines 53-96)

    [Date.now() - startTime] subtracts two integral Numbers: the difference
    is formed on the integers and rounded to a Number. *)

Definition callGitHubModel (model message : string)
    (temperature_arg maxTokens_arg : option number) : M Invocation value :=
  let temperature := default_to number_0_7 temperature_arg in
  let maxTokens := default_to number_1000 maxTokens_arg in
  startTime <- Date_now ;;
  try_catch
    (response <-
       fetch endpoint "POST"
         [ ("Authorization", ("Bearer " ++ GITHUB_TOKEN)%string);
           ("Content-Type", "application/json") ]
         (VObj [ ("model", VStr model);
                 ("messages",
                  VArr [ VObj [ ("role", VStr "user");
                                ("content", VStr message) ] ]);
                 ("temperature", VNum temperature);
                 ("max_tokens", VNum maxTokens) ]) ;;
     now <- Date_now ;;
     let responseTime := number_of_Z (now - startTime) in
     if negb (ok response) then
       errorText <- settle (text response) ;;
       ret (VObj [ ("model", VStr model);
                   ("error", VStr errorText);
                   ("responseTime", VNum responseTime) ])
     else
       result <- settle (json response) ;;
       content <- settle (first_content result) ;;
       usage <- settle (get result "usage") ;;
       ret (VObj [ ("model", VStr model);
                   ("response", or_else content (VStr EmptyString));
                   ("usage", usage);
                   ("responseTime", VNum responseTime) ]))
    (fun error =>
       now <- Date_now ;;
       ret (VObj [ ("model", VStr model);
                   ("error", VStr (JS.message error));
                   ("responseTime", VNum (number_of_Z (now - startTime))) ])).

(** ** GET /api/models (lines 130-144) *)


(** ** GET /api/models/:modelId/chat (lines 147-177) *)

Definition chat_handler (req : HttpRequest) : M Server HttpResponse :=
  let modelId := modelId_param req in
  let '(mkQuery q _ temperature max_tokens) := query req in
  if negb (includes MODELS modelId) then
    ret (mkHttpResponse 404
           (VObj [ ("error", VStr ("Model '" ++ modelId ++ "' not found"));
                   ("available_models", VArr (List.map VStr MODELS)) ]))
  else
  match required_string q with
  | None =>
    ret (mkHttpResponse 400
           (VObj [ ("error", VStr "Query parameter 'q' is required");
                   ("example", VStr ("/api/models/" ++ modelId ++ "/chat?q=Hello world")) ]))
  | Some q =>
    temp <- settle (if q_truthy temperature then parseFloat_param temperature
                    else Normal number_0_7) ;;
    maxTok <- settle (if q_truthy max_tokens then parseInt_param max_tokens
                      else Normal number_1000) ;;
    result <- invoke (callGitHubModel modelId q (Some temp) (Some maxTok)) ;;
    error <- settle (get result "error") ;;
    if truthy error then ret (mkHttpResponse 500 result)
    else ret (res_json result)
  end.

(** ** GET /api/compare (lines 180-218) *)

Definition compare_handler (req : HttpRequest) : M Server HttpResponse :=
  let '(mkQuery q models temperature max_tokens) := query req in
  match required_string q with
  | None =>
    ret (mkHttpResponse 400
           (VObj [ ("error", VStr "Query parameter 'q' is required");
                   ("example", VStr "/api/compare?q=Hello world&models=gpt-4o,Meta-Llama-3.1-8B-Instruct") ]))
  | Some q =>
  match required_string models with
  | None =>
    ret (mkHttpResponse 400
           (VObj [ ("error", VStr "Query parameter 'models' is required (comma-separated)");
                   ("example", VStr "/api/compare?q=Hello world&models=gpt-4o,Meta-Llama-3.1-8B-Instruct") ]))
  | Some models =>
    let modelsList := List.map trim (split "," models) in
    let invalidModels :=
      List.filter (fun model => negb (includes MODELS model)) modelsList in
    if (0 <? List.length invalidModels)%nat then
      ret (mkHttpResponse 400
             (VObj [ ("error", VStr ("Invalid models: " ++ join ", " invalidModels));
                     ("available_models", VArr (List.map VStr MODELS)) ]))
    else
    temp <- settle (if q_truthy temperature then parseFloat_param temperature
                    else Normal number_0_7) ;;
    maxTok <- settle (if q_truthy max_tokens then parseInt_param max_tokens
                      else Normal number_1000) ;;
    promises <-
      mapM (fun model =>
              async (invoke (callGitHubModel model q (Some temp) (Some maxTok))))
           modelsList ;;
    results <- settle (Promise_all promises) ;;
    ret (res_json (VObj [ ("results", VArr results) ]))
  end
  end.

End Gateway.

(** ** Vocabulary of the properties *)

(** An own property of an object, when it is there. *)
Definition field (k : string) (v : value) : option value :=
  match v with
  | VObj fields => lookup k fields
  | _ => None
  end.

(** [s.includes(sub)]: [sub] occurs somewhere in [s]. *)
Fixpoint contains (s sub : string) : bool :=
  String.prefix sub s ||
  match s with
  | String _ r => contains r sub
  | EmptyString => false
  end.

(** [0 <= x] on Numbers. *)
Definition nonnegative (x : number) : bool := num_leb (S754_zero false) x.

(** A clock that is never set back. *)
Definition monotone (c : nat -> Z) : Prop :=
  forall i j, (i <= j)%nat -> (c i <= c j)%Z.

(** The two shapes of a helper result (lines 75-79, 83-88 and 90-94). *)
Definition failure_envelope (model error : string) (responseTime : number) : value :=
  VObj [ ("model", VStr model);
         ("error", VStr error);
         ("responseTime", VNum responseTime) ].

Definition success_envelope (model : string) (response usage : value)
    (responseTime : number) : value :=
  VObj [ ("model", VStr model);
         ("response", response);
         ("usage", usage);
         ("responseTime", VNum responseTime) ].

(** Time elapsed between the readings [i] and [j] of the clock of [x]. *)
Definition elapsed (x : Exchange) (i j : nat) : number :=
  number_of_Z (clock x j - clock x i).

(** The request the helper posts for its arguments. *)
Definition outbound_request (GITHUB_TOKEN model message : string)
    (temperature maxTokens : number) : Request :=
  mkRequest endpoint "POST"
    [ ("Authorization", ("Bearer " ++ GITHUB_TOKEN)%string);
      ("Content-Type", "application/json") ]
    (VObj [ ("model", VStr model);
            ("messages",
             VArr [ VObj [ ("role", VStr "user"); ("content", VStr message) ] ]);
            ("temperature", VNum temperature);
            ("max_tokens", VNum maxTokens) ]).

(** How one helper invocation settles in the exchange [x]. *)
Definition helper_result (GITHUB_TOKEN : string) (x : Exchange)
    (model message : string) (temperature maxTokens : number)
  : completion value :=
  fst (callGitHubModel GITHUB_TOKEN model message (Some temperature) (Some maxTokens)
         (mkInvocation x 0 [])).

(** The value one helper invocation settles with ([helper_always_returns]
    shows that it never rejects). *)
Definition helper_value (GITHUB_TOKEN : string) (x : Exchange)
    (model message : string) (temperature maxTokens : number) : value :=
  match helper_result GITHUB_TOKEN x model message temperature maxTokens with
  | Normal v => v
  | Throw _ => VUndefined
  end.

(** The status the chat handler answers with for a helper result
    (lines 172-176). *)
Definition chat_status (result : value) : nat :=
  match field "error" result with
  | Some e => if truthy e then 500 else 200
  | None => 200
  end.

(** A list with the positions of its elements, counted from [k]. *)
Definition indexed_from {A} (k : nat) (l : list A) : list (nat * A) :=
  combine (seq k (List.length l)) l.

(** A handler run on a fresh trace: its response and the requests it
    posted. *)
Definition serve (h : M Server HttpResponse) (net : nat -> Exchange)
  : completion HttpResponse * list Request :=
  let '(r, w) := h (mkServer net []) in (r, outbound w).

(** [models.split(',').map(m => m.trim())] *)
Definition modelsList (models : string) : list string :=
  List.map trim (split "," models).

(** What a handler computes from [temperature] and [max_tokens] (lines
    167-168 and 210-211): a Number, or the error thrown by the conversion
    of the value to a string. *)
Definition temp_of (temperature : query_param) : completion number :=
  if q_truthy temperature then parseFloat_param temperature else Normal number_0_7.

Definition maxTok_of (max_tokens : query_param) : completion number :=
  if q_truthy max_tokens then parseInt_param max_tokens else Normal number_1000.

(** The identifiers of a list that are not in the registry (line 202). *)
Definition invalid_of (l : list string) : list string :=
  List.filter (fun model => negb (includes MODELS model)) l.

(** The three rejections of the handlers. *)
Definition model_not_found (modelId : string) : HttpResponse :=
  mkHttpResponse 404
    (VObj [ ("error", VStr ("Model '" ++ modelId ++ "' not found"));
            ("available_models", VArr (List.map VStr MODELS)) ]).

Definition q_required (example : string) : HttpResponse :=
  mkHttpResponse 400
    (VObj [ ("error", VStr "Query parameter 'q' is required");
            ("example", VStr example) ]).

Definition invalid_models (error : string) : HttpResponse :=
  mkHttpResponse 400
    (VObj [ ("error", VStr error);
            ("available_models", VArr (List.map VStr MODELS)) ]).


(** A response whose error text names the identifier [id]. *)
Definition names_model (response : HttpResponse) (id : string) : Prop :=
  exists error,
    field "error" (payload response) = Some (VStr error)
    /\ contains error id = true.

(** A response that carries an example of the usage. *)
Definition shows_example (response : HttpResponse) : Prop :=
  exists example, field "example" (payload response) = Some (VStr example).




(** Properties in the unconditional form in which the specification words
    them; each fails on the source. *)

(** Every identifier outside the registry is reported by both handlers. *)
Definition unknown_model_always_reported (GITHUB_TOKEN : string) : Prop :=
  forall id, includes MODELS id = false ->
    (forall net qry,
        exists response,
          serve (chat_handler GITHUB_TOKEN (mkHttpRequest id qry)) net
          = (Normal response, [])
          /\ status response = 404
          /\ names_model response id)
    /\ (forall net modelId q ms temperature max_tokens,
           In id (modelsList ms) ->
           exists response,
             serve (compare_handler GITHUB_TOKEN
                      (mkHttpRequest modelId
                         (mkQuery q (Some (QStr ms)) temperature max_tokens))) net
             = (Normal response, [])
             /\ status response = 400
             /\ names_model response id).

(** Every request without query text is answered 400 with an example. *)
Definition missing_q_always_400 (GITHUB_TOKEN : string) : Prop :=
  forall q, q = None \/ q = Some (QStr EmptyString) ->
    forall net modelId models temperature max_tokens,
      (exists response,
          serve (chat_handler GITHUB_TOKEN
                   (mkHttpRequest modelId (mkQuery q models temperature max_tokens))) net
          = (Normal response, [])
          /\ status response = 400
          /\ shows_example response)
      /\ (exists response,
             serve (compare_handler GITHUB_TOKEN
                      (mkHttpRequest modelId (mkQuery q models temperature max_tokens))) net
             = (Normal response, [])
             /\ status response = 400
             /\ shows_example response).

(** Every compare request with an invalid identifier in its list is
    answered with a 400 that names all the invalid identifiers. *)
Definition invalid_models_always_listed (GITHUB_TOKEN : string) : Prop :=
  forall net modelId q ms temperature max_tokens,
    Exists (fun model => includes MODELS model = false) (modelsList ms) ->
    exists response,
      serve (compare_handler GITHUB_TOKEN
               (mkHttpRequest modelId
                  (mkQuery q (Some (QStr ms)) temperature max_tokens))) net
      = (Normal response, [])
      /\ status response = 400
      /\ (forall id, In id (modelsList ms) -> includes MODELS id = false ->
          names_model response id).



(** Every helper result has a nonnegative [responseTime]. *)
Definition responseTime_always_nonnegative (GITHUB_TOKEN : string) : Prop :=
  forall model message t k x,
    exists v rt,
      helper_result GITHUB_TOKEN x model message t k = Normal v
      /\ field "responseTime" v = Some (VNum rt)
      /\ nonnegative rt = true.

(** Sample worlds. *)
Definition sample_token : string := "ghp_example".

(** [?temperature[toString]=x], as Express 4 parses it. *)
Definition toString_object : query_param :=
  Some (QObj [ ("toString", QStr "x") ]).

Definition steady_clock (n : nat) : Z := 1762156800000 + 40 * Z.of_nat n.

Definition answering (r : Response) : Exchange :=
  mkExchange steady_clock (Normal r).

Definition unreachable : Exchange :=
  mkExchange steady_clock (Throw (TypeError "fetch failed")).

(** A non-success status with the given body. *)
Definition error_reply (errorText : string) : Response :=
  mkResponse false (Normal errorText)
    (Throw (mkError "SyntaxError" "Unexpected end of JSON input")).

(** A success status with the given JSON document. *)
Definition json_reply (document : value) : Response :=
  mkResponse true (Throw (TypeError "Body is unusable")) (Normal document).

Definition busy : Exchange := answering (error_reply "Too Many Requests").

(** An exchange during which the clock is set back by 40 ms. *)
Definition clock_set_back : Exchange :=
  mkExchange (fun n => (1762156800000 - 40 * Z.of_nat n)%Z)
             (Normal (error_reply "Too Many Requests")).

Definition hi_reply : value :=
  VObj [ ("choices",
          VArr [ VObj [ ("message", VObj [ ("content", VStr "Hi!") ]) ] ]);
         ("usage", VObj [ ("total_tokens", VNum (number_of_Z 5)) ]) ].

(** The first call is answered, the later ones are turned away. *)
Definition sample_network (k : nat) : Exchange :=
  match k with
  | O => answering (json_reply hi_reply)
  | S _ => busy
  end.

(** Modelled on the words of the specification: the publisher rules as an
    ordered table of prefix and label, the first rule whose prefix matches
    giving the label, and [Unknown] when none does. *)
Definition publisher_rules : list (string * string) :=
  [ ("gpt-", "OpenAI");
    ("Meta-Llama", "Meta");
    ("Mistral", "Mistral");
    ("Phi-", "Microsoft");
    ("Cohere", "Cohere");
    ("AI21", "AI21 Labs");
    ("Qwen", "Qwen") ].

Fixpoint first_match (rules : list (string * string)) (id : string) : string :=
  match rules with
  | [] => "Unknown"
  | (p, label) :: rest => if String.prefix p id then label else first_match rest id
  end.

Definition publishers : list string := List.map snd publisher_rules.

(** The results a compare response carries, and the entries of the
    listing of [GET /api/models]. *)
Definition results_of (r : completion HttpResponse * list Request) : list value :=
  match fst r with
  | Normal response =>
      match field "results" (payload response) with
      | Some (VArr l) => l
      | _ => []
      end
  | Throw _ => []
  end.


(* ================================================================== *)
(** ** Properties                                                      *)
(* ================================================================== *)

(** *** Numbers *)

Section Rounding.

Let shr_nonneg (mrs : shr_record) : Prop := (0 <= shr_m mrs)%Z.

Lemma shr_1_nonneg mrs : shr_nonneg mrs -> shr_nonneg (shr_1 mrs).
Proof.
  unfold shr_nonneg. destruct mrs as [m r s]. simpl.
  destruct m as [|[p|p|]|p]; simpl; intros; lia.
Qed.

Lemma iter_pos_invariant {A} (P : A -> Prop) (f : A -> A) :
  (forall a, P a -> P (f a)) -> forall n a, P a -> P (iter_pos f n a).
Proof.
  intros Hf. induction n as [n IH|n IH|]; simpl; intros a Ha; auto.
Qed.

Lemma shr_fexp_nonneg m e l :
  (0 <= m)%Z -> (0 <= shr_m (fst (shr_fexp prec emax m e l)))%Z.
Proof.
  intros Hm. unfold shr_fexp, shr.
  assert (H0 : shr_nonneg (shr_record_of_loc m l)).
  { unfold shr_nonneg. destruct l as [|[]]; simpl; exact Hm. }
  destruct (fexp prec emax (Zdigits2 m + e) - e)%Z; simpl; auto.
  apply (iter_pos_invariant shr_nonneg); auto using shr_1_nonneg.
Qed.

Lemma round_nearest_even_nonneg m l :
  (0 <= m)%Z -> (0 <= round_nearest_even m l)%Z.
Proof.
  intros Hm. destruct l as [|[]]; simpl; try lia.
  destruct (Z.even m); lia.
Qed.

(** Rounding a magnitude never yields NaN and keeps the sign it is given. *)
Lemma binary_round_aux_sign sx mx ex lx :
  (0 <= mx)%Z ->
  match binary_round_aux prec emax sx mx ex lx with
  | S754_zero s | S754_infinity s | S754_finite s _ _ => s = sx
  | S754_nan => False
  end.
Proof.
  intros Hm. unfold binary_round_aux.
  pose proof (shr_fexp_nonneg mx ex lx Hm) as H1.
  destruct (shr_fexp prec emax mx ex lx) as [mrs' e'] eqn:E1. simpl in H1.
  pose proof (shr_fexp_nonneg _ e' loc_Exact
                (round_nearest_even_nonneg _ (loc_of_shr_record mrs') H1)) as H2.
  destruct (shr_fexp prec emax _ e' loc_Exact) as [mrs'' e''] eqn:E2. simpl in H2.
  destruct (shr_m mrs'') as [|p|p]; try lia; auto.
  destruct (e'' <=? emax - prec)%Z; reflexivity.
Qed.

Lemma number_of_Z_nonnegative z :
  (0 <= z)%Z -> nonnegative (number_of_Z z) = true.
Proof.
  intros Hz. unfold number_of_Z, binary_normalize.
  destruct z as [|p|p]; try lia; [reflexivity|].
  unfold binary_round.
  destruct (shl_align p 0 _) as [mz ez].
  pose proof (binary_round_aux_sign false (Z.pos mz) ez loc_Exact ltac:(lia)) as H.
  destruct (binary_round_aux prec emax false (Z.pos mz) ez loc_Exact);
    try contradiction; subst; reflexivity.
Qed.

Lemma number_of_Z_not_NaN z : isNaN (number_of_Z z) = false.
Proof.
  unfold number_of_Z, binary_normalize.
  destruct z as [|p|p]; [reflexivity| |]; unfold binary_round;
    destruct (shl_align p 0 _) as [mz ez].
  - pose proof (binary_round_aux_sign false (Z.pos mz) ez loc_Exact ltac:(lia)) as H.
    destruct (binary_round_aux prec emax false (Z.pos mz) ez loc_Exact);
      try contradiction; reflexivity.
  - pose proof (binary_round_aux_sign true (Z.pos mz) ez loc_Exact ltac:(lia)) as H.
    destruct (binary_round_aux prec emax true (Z.pos mz) ez loc_Exact);
      try contradiction; reflexivity.
Qed.



(** The difference of two readings, formed on the integers and then
    rounded, is the Number subtraction of the readings. *)
Example responseTime_is_a_subtraction :
  num_sub (number_of_Z 1762156800042) (number_of_Z 1762156800000)
  = number_of_Z (1762156800042 - 1762156800000).
Proof. vm_compute. reflexivity. Qed.

End Rounding.

(** *** Reading numerals *)







(** *** Property reads *)

Lemma get_defined v k :
  nullish v = false -> exists x, get v k = Normal x.
Proof. destruct v; simpl; intros H; try discriminate; eauto. Qed.

Lemma get_index_defined v i :
  nullish v = false -> exists x, get_index v i = Normal x.
Proof. destruct v; simpl; intros H; try discriminate; eauto. Qed.

Lemma get_nullish_throws v k :
  nullish v = true -> exists e, get v k = Throw e.
Proof. destruct v; simpl; intros H; try discriminate; eauto. Qed.

Lemma first_content_defined v :
  nullish v = false -> exists c, first_content v = Normal c.
Proof.
  intros Hv. unfold first_content.
  destruct (get_defined v "choices" Hv) as [choices ->]. simpl.
  destruct (nullish choices) eqn:Hc; [eauto|].
  destruct (get_index_defined choices 0 Hc) as [first ->]. simpl.
  destruct (nullish first) eqn:Hf; [eauto|].
  destruct (get_defined first "message" Hf) as [msg ->]. simpl.
  destruct (nullish msg) eqn:Hm; [eauto|].
  apply get_defined; assumption.
Qed.

Lemma first_content_nullish_throws v :
  nullish v = true -> exists e, first_content v = Throw e.
Proof.
  intros Hv. unfold first_content.
  destruct (get_nullish_throws v "choices" Hv) as [e ->]. simpl. eauto.
Qed.

(** *** The helper, outcome by outcome *)

Section Helper.

Variable GITHUB_TOKEN : string.
Variables (model message : string) (temperature maxTokens : number).
Variables (x : Exchange) (n : nat) (sent : list Request).

Local Abbreviation run :=
  (callGitHubModel GITHUB_TOKEN model message (Some temperature) (Some maxTokens)
     (mkInvocation x n sent)).

Local Abbreviation posted_after :=
  (sent ++ [outbound_request GITHUB_TOKEN model message temperature maxTokens])%list.

Ltac step_helper :=
  unfold callGitHubModel, bind, try_catch, Date_now, fetch,
    settle, ret, default_to, elapsed; simpl.

(** [fetch] rejects: the catch clause builds the failure. *)
Lemma helper_transport_failure e :
  reply x = Throw e ->
  run = (Normal (failure_envelope model (JS.message e) (elapsed x n (S n))),
         mkInvocation x (S (S n)) posted_after).
Proof. intros H. step_helper. rewrite H. reflexivity. Qed.

(** A non-success status whose body is read. *)
Lemma helper_remote_error r errorText :
  reply x = Normal r -> ok r = false -> text r = Normal errorText ->
  run = (Normal (failure_envelope model errorText (elapsed x n (S n))),
         mkInvocation x (S (S n)) posted_after).
Proof. intros H1 H2 H3. step_helper. rewrite H1, H2. simpl. rewrite H3. reflexivity. Qed.

(** A non-success status whose body cannot be read. *)
Lemma helper_remote_error_unread r e :
  reply x = Normal r -> ok r = false -> text r = Throw e ->
  run = (Normal (failure_envelope model (JS.message e) (elapsed x n (S (S n)))),
         mkInvocation x (S (S (S n))) posted_after).
Proof. intros H1 H2 H3. step_helper. rewrite H1, H2. simpl. rewrite H3. reflexivity. Qed.

(** A success status whose body is not JSON. *)
Lemma helper_bad_json r e :
  reply x = Normal r -> ok r = true -> json r = Throw e ->
  run = (Normal (failure_envelope model (JS.message e) (elapsed x n (S (S n)))),
         mkInvocation x (S (S (S n))) posted_after).
Proof. intros H1 H2 H3. step_helper. rewrite H1, H2. simpl. rewrite H3. reflexivity. Qed.

(** A success status and a JSON body other than [null]. *)
Lemma helper_success r result content usage :
  reply x = Normal r -> ok r = true -> json r = Normal result ->
  first_content result = Normal content -> get result "usage" = Normal usage ->
  run = (Normal (success_envelope model (or_else content (VStr EmptyString)) usage
                   (elapsed x n (S n))),
         mkInvocation x (S (S n)) posted_after).
Proof.
  intros H1 H2 H3 H4 H5. step_helper. rewrite H1, H2. simpl.
  rewrite H3, H4. simpl. rewrite H5. reflexivity.
Qed.

(** A success status and the JSON body [null]: reading [choices] throws. *)
Lemma helper_null_json r result e :
  reply x = Normal r -> ok r = true -> json r = Normal result ->
  first_content result = Throw e ->
  run = (Normal (failure_envelope model (JS.message e) (elapsed x n (S (S n)))),
         mkInvocation x (S (S (S n))) posted_after).
Proof.
  intros H1 H2 H3 H4. step_helper. rewrite H1, H2. simpl.
  rewrite H3, H4. reflexivity.
Qed.

(** Whatever the exchange, the helper settles with one of the two
    envelopes, having posted exactly one request. *)
Lemma helper_settles :
  exists v k reads,
    run = (Normal v, mkInvocation x reads posted_after)
    /\ (n < k)%nat
    /\ ((exists e, v = failure_envelope model e (elapsed x n k))
        \/ (exists response usage,
               v = success_envelope model response usage (elapsed x n k))).
Proof.
  destruct (reply x) as [r|e] eqn:Hr.
  2:{ eexists _, (S n), _. rewrite (helper_transport_failure e Hr).
      split; [reflexivity|]. split; [lia|]. left. eauto. }
  destruct (ok r) eqn:Hok.
  - destruct (json r) as [result|e] eqn:Hj.
    2:{ eexists _, (S (S n)), _. rewrite (helper_bad_json r e Hr Hok Hj).
        split; [reflexivity|]. split; [lia|]. left. eauto. }
    destruct (nullish result) eqn:Hn.
    + destruct (first_content_nullish_throws result Hn) as [e He].
      eexists _, (S (S n)), _. rewrite (helper_null_json r result e Hr Hok Hj He).
      split; [reflexivity|]. split; [lia|]. left. eauto.
    + destruct (first_content_defined result Hn) as [c Hc].
      destruct (get_defined result "usage" Hn) as [u Hu].
      eexists _, (S n), _. rewrite (helper_success r result c u Hr Hok Hj Hc Hu).
      split; [reflexivity|]. split; [lia|]. right. eauto.
  - destruct (text r) as [b|e] eqn:Ht.
    + eexists _, (S n), _. rewrite (helper_remote_error r b Hr Hok Ht).
      split; [reflexivity|]. split; [lia|]. left. eauto.
    + eexists _, (S (S n)), _. rewrite (helper_remote_error_unread r e Hr Hok Ht).
      split; [reflexivity|]. split; [lia|]. left. eauto.
Qed.

End Helper.

(** *** Validation and the handlers *)

Lemma required_string_Some p s :
  required_string p = Some s <-> p = Some (QStr s) /\ s <> EmptyString.
Proof.
  unfold required_string. split.
  - destruct p as [[t|l|l]|]; simpl; try discriminate.
    destruct t; simpl; try discriminate.
    intros H. injection H as <-. split; [reflexivity|discriminate].
  - intros [-> Hs]. destruct s; [contradiction|reflexivity].
Qed.

Lemma required_string_missing_or_empty p :
  p = None \/ p = Some (QStr EmptyString) -> required_string p = None.
Proof. intros [->| ->]; reflexivity. Qed.

Lemma Promise_all_fulfilled {A} (l : list A) :
  Promise_all (List.map Normal l) = Normal l.
Proof. induction l as [|a l IH]; simpl; [|rewrite IH]; reflexivity. Qed.

Lemma filter_nil_of_Forall {A} (f : A -> bool) l :
  Forall (fun a => f a = true) l -> List.filter (fun a => negb (f a)) l = [].
Proof.
  induction 1 as [|a l Ha _ IH]; simpl; [reflexivity|].
  rewrite Ha. simpl. exact IH.
Qed.

Section Handlers.

Variable GITHUB_TOKEN : string.

Local Abbreviation helper := (callGitHubModel GITHUB_TOKEN).
Local Abbreviation request_for := (outbound_request GITHUB_TOKEN).
Local Abbreviation value_in := (helper_value GITHUB_TOKEN).

Lemma helper_always_returns x model message t k :
  helper_result GITHUB_TOKEN x model message t k = Normal (value_in x model message t k).
Proof.
  unfold helper_value, helper_result.
  destruct (helper_settles GITHUB_TOKEN model message t k x 0 [])
    as (v & j & reads & Hrun & _). rewrite Hrun. reflexivity.
Qed.

(** One awaited invocation: it returns, and the trace grows by the one
    request of that invocation. *)
Lemma invoke_helper w model message t k :
  invoke (helper model message (Some t) (Some k)) w
  = (Normal (value_in (network w (List.length (outbound w))) model message t k),
     mkServer (network w) (outbound w ++ [request_for model message t k])).
Proof.
  unfold invoke, helper_value, helper_result.
  destruct (helper_settles GITHUB_TOKEN model message t k
              (network w (List.length (outbound w))) 0 [])
    as (v & j & reads & Hrun & _).
  rewrite Hrun. reflexivity.
Qed.

(** The fan-out of compare: the invocations are started in list order, and
    each promise is fulfilled. *)
Lemma fan_out message t k l : forall w,
  mapM (fun model => async (invoke (helper model message (Some t) (Some k)))) l w
  = (Normal (List.map (fun im => Normal (value_in (network w (fst im)) (snd im) message t k))
               (indexed_from (List.length (outbound w)) l)),
     mkServer (network w)
              (outbound w ++ List.map (fun model => request_for model message t k) l)).
Proof.
  induction l as [|model l IH]; intros w.
  - simpl. unfold ret. rewrite app_nil_r. destruct w; reflexivity.
  - cbn [mapM]. unfold bind at 1. unfold async at 1.
    rewrite invoke_helper. unfold bind at 1. rewrite IH. unfold ret.
    cbn [network outbound]. rewrite length_app. cbn [List.length].
    replace (List.length (outbound w) + 1)%nat with (S (List.length (outbound w))) by lia.
    unfold indexed_from. cbn [List.length seq combine List.map fst snd].
    rewrite <- app_assoc. reflexivity.
Qed.

(** The chat handler on a request that passes both checks and whose
    number parameters are converted. *)
Lemma chat_validated net modelId q qs models temperature max_tokens t k :
  includes MODELS modelId = true ->
  required_string q = Some qs ->
  temp_of temperature = Normal t ->
  maxTok_of max_tokens = Normal k ->
  let v := value_in (net 0%nat) modelId qs t k in
  serve (chat_handler GITHUB_TOKEN
           (mkHttpRequest modelId (mkQuery q models temperature max_tokens))) net
  = (Normal (mkHttpResponse (chat_status v) v), [request_for modelId qs t k]).
Proof.
  intros Hm Hq Ht Hk v. unfold serve, chat_handler. cbn [modelId_param query].
  rewrite Hm, Hq. cbn [negb].
  fold (temp_of temperature) (maxTok_of max_tokens). rewrite Ht, Hk.
  unfold bind at 1. unfold settle at 1. unfold bind at 1. unfold settle at 1.
  unfold bind at 1. rewrite invoke_helper.
  cbn [network outbound List.length app]. fold v.
  unfold chat_status.
  destruct (helper_settles GITHUB_TOKEN modelId qs t k (net 0%nat) 0 [])
    as (v' & j & reads & Hrun & _ & Hshape).
  assert (Hv : v = v').
  { unfold v, helper_value, helper_result. rewrite Hrun. reflexivity. }
  rewrite Hv.
  destruct Hshape as [[e ->]|(r & u & ->)]; unfold bind, settle, ret; simpl;
    [destruct e|]; reflexivity.
Qed.

(** The chat handler when the conversion of [temperature], or else of
    [max_tokens], throws: the handler throws in turn, before any call. *)
Lemma chat_conversion_throws net modelId q qs models temperature max_tokens e :
  includes MODELS modelId = true ->
  required_string q = Some qs ->
  temp_of temperature = Throw e
  \/ (exists t, temp_of temperature = Normal t) /\ maxTok_of max_tokens = Throw e ->
  serve (chat_handler GITHUB_TOKEN
           (mkHttpRequest modelId (mkQuery q models temperature max_tokens))) net
  = (Throw e, []).
Proof.
  intros Hm Hq H. unfold serve, chat_handler. cbn [modelId_param query].
  rewrite Hm, Hq. cbn [negb].
  fold (temp_of temperature) (maxTok_of max_tokens).
  destruct H as [Ht|[[t Ht] Hk]]; rewrite Ht; [reflexivity|].
  rewrite Hk. reflexivity.
Qed.

(** The compare handler on a request that passes all three checks and
    whose number parameters are converted. *)
Lemma compare_validated net modelId q qs models ms temperature max_tokens t k :
  required_string q = Some qs ->
  required_string models = Some ms ->
  Forall (fun model => includes MODELS model = true) (modelsList ms) ->
  temp_of temperature = Normal t ->
  maxTok_of max_tokens = Normal k ->
  serve (compare_handler GITHUB_TOKEN
           (mkHttpRequest modelId (mkQuery q models temperature max_tokens))) net
  = (Normal (res_json
       (VObj [ ("results",
                VArr (List.map (fun im => value_in (net (fst im)) (snd im) qs t k)
                        (indexed_from 0 (modelsList ms)))) ])),
     List.map (fun model => request_for model qs t k) (modelsList ms)).
Proof.
  intros Hq Hms Hall Ht Hk. unfold serve, compare_handler. cbn [query].
  rewrite Hq, Hms. fold (modelsList ms).
  rewrite (filter_nil_of_Forall (includes MODELS) _ Hall). cbn [List.length Nat.ltb Nat.leb].
  fold (temp_of temperature) (maxTok_of max_tokens). rewrite Ht, Hk.
  unfold bind at 1. unfold settle at 1. unfold bind at 1. unfold settle at 1.
  unfold bind at 1.
  rewrite fan_out. cbn [network outbound List.length app].
  rewrite <- (List.map_map (fun im => value_in (net (fst im)) (snd im) qs t k) Normal).
  unfold bind, settle, ret. rewrite Promise_all_fulfilled. reflexivity.
Qed.

Lemma compare_conversion_throws net modelId q qs models ms temperature max_tokens e :
  required_string q = Some qs ->
  required_string models = Some ms ->
  Forall (fun model => includes MODELS model = true) (modelsList ms) ->
  temp_of temperature = Throw e
  \/ (exists t, temp_of temperature = Normal t) /\ maxTok_of max_tokens = Throw e ->
  serve (compare_handler GITHUB_TOKEN
           (mkHttpRequest modelId (mkQuery q models temperature max_tokens))) net
  = (Throw e, []).
Proof.
  intros Hq Hms Hall H. unfold serve, compare_handler. cbn [query].
  rewrite Hq, Hms. fold (modelsList ms).
  rewrite (filter_nil_of_Forall (includes MODELS) _ Hall). cbn [List.length Nat.ltb Nat.leb].
  fold (temp_of temperature) (maxTok_of max_tokens).
  destruct H as [Ht|[[t Ht] Hk]]; rewrite Ht; [reflexivity|].
  rewrite Hk. reflexivity.
Qed.

End Handlers.

(** *** Text of the error reports *)

Lemma prefix_refl s : String.prefix s s = true.
Proof.
  induction s as [|c s IH]; simpl; [reflexivity|].
  destruct (ascii_dec c c) as [_|H]; [exact IH|contradiction].
Qed.

Lemma prefix_app s p t : String.prefix p s = true -> String.prefix p (s ++ t) = true.
Proof.
  revert s. induction p as [|c p IH]; intros s H.
  { destruct (s ++ t)%string; reflexivity. }
  destruct s as [|d s]; simpl in *; [discriminate|].
  destruct (ascii_dec c d); [apply IH; exact H|discriminate].
Qed.

Lemma contains_refl s : contains s s = true.
Proof.
  destruct s as [|c s]; [reflexivity|].
  cbn [contains]. rewrite prefix_refl. reflexivity.
Qed.

Lemma contains_app_l s t sub : contains s sub = true -> contains (s ++ t) sub = true.
Proof.
  induction s as [|c s IH].
  - simpl. rewrite orb_false_r. intros H.
    destruct sub; [destruct t; reflexivity|discriminate].
  - cbn [contains append]. intros H. apply orb_true_iff in H as [H|H].
    + change (String c (s ++ t)%string) with (String c s ++ t)%string.
      rewrite (prefix_app _ _ t H). reflexivity.
    + rewrite (IH H). apply orb_true_r.
Qed.

Lemma contains_app_r s t sub : contains t sub = true -> contains (s ++ t) sub = true.
Proof.
  intros H. induction s as [|c s IH]; [exact H|].
  cbn [contains append]. rewrite IH. apply orb_true_r.
Qed.

Lemma contains_join sep l x : In x l -> contains (join sep l) x = true.
Proof.
  unfold join. induction l as [|a l IH]; [contradiction|].
  intros [->|Hin].
  - destruct l; simpl; [apply contains_refl|].
    apply contains_app_l, contains_refl.
  - destruct l as [|b l]; [contradiction|].
    change (String.concat sep (a :: b :: l))
      with (a ++ sep ++ String.concat sep (b :: l))%string.
    apply contains_app_r, contains_app_r, IH, Hin.
Qed.

Lemma invalid_of_complete l id :
  In id l -> includes MODELS id = false -> In id (invalid_of l).
Proof.
  intros Hin Hid. unfold invalid_of. apply filter_In. split; [exact Hin|].
  rewrite Hid. reflexivity.
Qed.

Lemma isNaN_eq x : isNaN x = true -> x = NaN.
Proof. destruct x; simpl; intros H; try discriminate; reflexivity. Qed.

Lemma map_snd_indexed {A B} (f : A -> B) (l : list A) : forall k,
  List.map (fun im => f (snd im)) (indexed_from k l) = List.map f l.
Proof.
  unfold indexed_from. induction l as [|a l IH]; intros k; simpl; [reflexivity|].
  rewrite IH. reflexivity.
Qed.

(** *** The rejections *)

Section Rejections.

Variable GITHUB_TOKEN : string.

(** The model check of the chat handler comes first. *)
Lemma chat_unknown_model net modelId qry :
  includes MODELS modelId = false ->
  serve (chat_handler GITHUB_TOKEN (mkHttpRequest modelId qry)) net
  = (Normal (model_not_found modelId), []).
Proof.
  intros H. unfold serve, chat_handler. cbn [modelId_param query].
  destruct qry as [q ms t k]. rewrite H. reflexivity.
Qed.

Lemma chat_missing_q net modelId q models temperature max_tokens :
  includes MODELS modelId = true ->
  required_string q = None ->
  serve (chat_handler GITHUB_TOKEN
           (mkHttpRequest modelId (mkQuery q models temperature max_tokens))) net
  = (Normal (q_required ("/api/models/" ++ modelId ++ "/chat?q=Hello world")), []).
Proof.
  intros Hm Hq. unfold serve, chat_handler. cbn [modelId_param query].
  rewrite Hm, Hq. reflexivity.
Qed.

(** The query check of the compare handler comes first. *)
Lemma compare_missing_q net modelId q models temperature max_tokens :
  required_string q = None ->
  serve (compare_handler GITHUB_TOKEN
           (mkHttpRequest modelId (mkQuery q models temperature max_tokens))) net
  = (Normal (q_required
       "/api/compare?q=Hello world&models=gpt-4o,Meta-Llama-3.1-8B-Instruct"), []).
Proof.
  intros Hq. unfold serve, compare_handler. cbn [query]. rewrite Hq. reflexivity.
Qed.

Lemma compare_missing_models net modelId q qs models temperature max_tokens :
  required_string q = Some qs ->
  required_string models = None ->
  exists payload,
    serve (compare_handler GITHUB_TOKEN
             (mkHttpRequest modelId (mkQuery q models temperature max_tokens))) net
    = (Normal (mkHttpResponse 400 payload), [])
    /\ field "error" payload
       = Some (VStr "Query parameter 'models' is required (comma-separated)").
Proof.
  intros Hq Hms. unfold serve, compare_handler. cbn [query]. rewrite Hq, Hms.
  eexists. split; reflexivity.
Qed.

Lemma compare_invalid_models net modelId q qs models ms temperature max_tokens :
  required_string q = Some qs ->
  required_string models = Some ms ->
  invalid_of (modelsList ms) <> [] ->
  serve (compare_handler GITHUB_TOKEN
           (mkHttpRequest modelId (mkQuery q models temperature max_tokens))) net
  = (Normal (invalid_models
       ("Invalid models: " ++ join ", " (invalid_of (modelsList ms)))), []).
Proof.
  intros Hq Hms Hbad. unfold serve, compare_handler. cbn [query].
  rewrite Hq, Hms. fold (modelsList ms). fold (invalid_of (modelsList ms)).
  destruct (invalid_of (modelsList ms)) as [|bad rest] eqn:E; [contradiction|].
  reflexivity.
Qed.

End Rejections.

(* ================================================================== *)
(** ** The claims                                                      *)
(* ================================================================== *)

Section Claims.

Variable GITHUB_TOKEN : string.

Local Abbreviation helper := (callGitHubModel GITHUB_TOKEN).
Local Abbreviation request_for := (outbound_request GITHUB_TOKEN).
Local Abbreviation value_in := (helper_value GITHUB_TOKEN).
Local Abbreviation result_in := (helper_result GITHUB_TOKEN).

Lemma helper_defaults model message temperature maxTokens :
  helper model message temperature maxTokens
  = helper model message (Some (default_to number_0_7 temperature))
                         (Some (default_to number_1000 maxTokens)).
Proof. destruct temperature, maxTokens; reflexivity. Qed.

(** The value a helper invocation settles with is one of the two
    envelopes, timed between the first reading of the clock and a later
    one. *)
Lemma helper_value_shape x model message t k :
  exists j, (0 < j)%nat /\
    ((exists e, value_in x model message t k
                = failure_envelope model e (elapsed x 0 j))
     \/ (exists response usage,
           value_in x model message t k
           = success_envelope model response usage (elapsed x 0 j))).
Proof.
  unfold helper_value, helper_result.
  destruct (helper_settles GITHUB_TOKEN model message t k x 0 [])
    as (v & j & reads & Hrun & Hj & Hshape).
  rewrite Hrun. exists j. split; [exact Hj|exact Hshape].
Qed.

Lemma helper_value_model x model message t k :
  field "model" (value_in x model message t k) = Some (VStr model).
Proof.
  destruct (helper_value_shape x model message t k)
    as (j & _ & [[e ->]|(r & u & ->)]); reflexivity.
Qed.

Lemma elapsed_nonnegative x i j :
  monotone (clock x) -> (i <= j)%nat -> nonnegative (elapsed x i j) = true.
Proof.
  intros Hc Hij. unfold elapsed. apply number_of_Z_nonnegative.
  specialize (Hc i j Hij). lia.
Qed.


(** C2.  The chat handler tells a failure from a success by the truth
    value of the result's [error] (line 172).  A remote endpoint that
    answers with a non-success status and an empty body makes the helper
    return the failure envelope with the empty string as its error, and
    the handler answers it with status 200, not 500. *)
Theorem chat_answers_200_to_an_empty_error_body :
  let net := fun _ : nat => answering (error_reply EmptyString) in
  let failure := failure_envelope "gpt-4o" EmptyString (elapsed (net 0%nat) 0 1) in
  result_in (net 0%nat) "gpt-4o" "Hello" number_0_7 number_1000 = Normal failure
  /\ serve (chat_handler GITHUB_TOKEN
              (mkHttpRequest "gpt-4o" (mkQuery (Some (QStr "Hello")) None None None))) net
     = (Normal (mkHttpResponse 200 failure),
        [request_for "gpt-4o" "Hello" number_0_7 number_1000]).
Proof. split; reflexivity. Qed.

(** C3 (amended).  For every model identifier that is not in the registry:
    the chat handler answers 404 with the report that the model is not
    found, whatever the query; the compare handler, given a model list
    that holds the identifier, answers 400, and when [q] and [models] are
    non-empty strings its report names the identifier among the invalid
    models.  Neither posts an outbound request. *)
Theorem unknown_model_is_rejected id :
  includes MODELS id = false ->
  (forall net qry,
      serve (chat_handler GITHUB_TOKEN (mkHttpRequest id qry)) net
      = (Normal (model_not_found id), []))
  /\ (forall net modelId q ms temperature max_tokens,
         In id (modelsList ms) ->
         exists response,
           serve (compare_handler GITHUB_TOKEN
                    (mkHttpRequest modelId
                       (mkQuery q (Some (QStr ms)) temperature max_tokens))) net
           = (Normal response, [])
           /\ status response = 400
           /\ (forall qs, q = Some (QStr qs) -> qs <> EmptyString ->
               ms <> EmptyString ->
               exists error,
                 response = invalid_models error
                 /\ error = ("Invalid models: "
                             ++ join ", " (invalid_of (modelsList ms)))%string
                 /\ contains error id = true)).
Proof.
  intros Hid. split.
  - intros net qry. apply chat_unknown_model. exact Hid.
  - intros net modelId q ms temperature max_tokens Hin.
    destruct (required_string q) as [qs|] eqn:Hq.
    2:{ eexists. split; [apply compare_missing_q; exact Hq|].
        split; [reflexivity|].
        intros qs -> Hqs _. exfalso.
        assert (H : required_string (Some (QStr qs)) = Some qs)
          by (apply required_string_Some; auto).
        congruence. }
    destruct (required_string (Some (QStr ms))) as [ms'|] eqn:Hms.
    + apply required_string_Some in Hms as [Heq Hne]. injection Heq as <-.
      assert (Hms : required_string (Some (QStr ms)) = Some ms)
        by (apply required_string_Some; auto).
      pose proof (invalid_of_complete _ _ Hin Hid) as Hbad.
      eexists. split.
      { apply (compare_invalid_models GITHUB_TOKEN net modelId q qs _ ms _ _ Hq Hms).
        intros E. rewrite E in Hbad. contradiction. }
      split; [reflexivity|]. intros _ _ _ _.
      eexists. split; [reflexivity|]. split; [reflexivity|].
      apply contains_app_r, contains_join, Hbad.
    + destruct (compare_missing_models GITHUB_TOKEN net modelId q qs _
                  temperature max_tokens Hq Hms) as (payload & Hrun & _).
      eexists. split; [exact Hrun|]. split; [reflexivity|].
      intros qs' _ _ Hne. exfalso.
      assert (H : required_string (Some (QStr ms)) = Some ms)
        by (apply required_string_Some; auto).
      congruence.
Qed.

(** C4 (amended).  When the query text [q] is missing or empty, the chat
    handler, for a model of the registry, and the compare handler, for any
    request, answer 400 with an example of the usage and post no outbound
    request. *)
Theorem missing_q_is_a_bad_request q :
  q = None \/ q = Some (QStr EmptyString) ->
  (forall net modelId models temperature max_tokens,
      includes MODELS modelId = true ->
      serve (chat_handler GITHUB_TOKEN
               (mkHttpRequest modelId (mkQuery q models temperature max_tokens))) net
      = (Normal (q_required ("/api/models/" ++ modelId ++ "/chat?q=Hello world")), []))
  /\ (forall net modelId models temperature max_tokens,
         serve (compare_handler GITHUB_TOKEN
                  (mkHttpRequest modelId (mkQuery q models temperature max_tokens))) net
         = (Normal (q_required
              "/api/compare?q=Hello world&models=gpt-4o,Meta-Llama-3.1-8B-Instruct"),
            [])).
Proof.
  intros Hq. apply required_string_missing_or_empty in Hq. split; intros.
  - apply chat_missing_q; assumption.
  - apply compare_missing_q; assumption.
Qed.

(** C5 (amended).  For every compare request with a non-empty query string
    and a non-empty model list of which at least one identifier is outside
    the registry, the one 400 response reports all the invalid identifiers
    of the list: its error text is [Invalid models: ] followed by every
    invalid entry, in list order and as often as it is listed, so that
    each of them occurs in the text; no outbound request is posted. *)
Theorem compare_reports_every_invalid_model
    net modelId qs ms temperature max_tokens :
  qs <> EmptyString ->
  ms <> EmptyString ->
  Exists (fun model => includes MODELS model = false) (modelsList ms) ->
  exists error,
    serve (compare_handler GITHUB_TOKEN
             (mkHttpRequest modelId
                (mkQuery (Some (QStr qs)) (Some (QStr ms)) temperature max_tokens))) net
    = (Normal (invalid_models error), [])
    /\ error = ("Invalid models: " ++ join ", " (invalid_of (modelsList ms)))%string
    /\ (forall id, In id (modelsList ms) -> includes MODELS id = false ->
        contains error id = true
        /\ count_occ string_dec (invalid_of (modelsList ms)) id
           = count_occ string_dec (modelsList ms) id).
Proof.
  intros Hqs Hms Hex.
  assert (Hq : required_string (Some (QStr qs)) = Some qs)
    by (apply required_string_Some; auto).
  assert (Hm : required_string (Some (QStr ms)) = Some ms)
    by (apply required_string_Some; auto).
  eexists. split; [|split; [reflexivity|]].
  - apply (compare_invalid_models GITHUB_TOKEN net modelId _ qs _ ms _ _ Hq Hm).
    apply Exists_exists in Hex as (bad & Hin & Hbad).
    pose proof (invalid_of_complete _ _ Hin Hbad) as H.
    intros E. rewrite E in H. contradiction.
  - intros id Hin Hid. split.
    + apply contains_app_r, contains_join, invalid_of_complete; assumption.
    + unfold invalid_of. clear Hin Hex.
      induction (modelsList ms) as [|a l IH]; [reflexivity|].
      cbn [List.filter]. destruct (includes MODELS a) eqn:Ha; cbn [negb count_occ].
      * destruct (string_dec a id) as [->|_]; [congruence|exact IH].
      * destruct (string_dec a id); rewrite IH; reflexivity.
Qed.

(** C6.  Whenever the remote endpoint answers with a non-success status,
    the helper returns an object with the model, an [error] and a
    [responseTime] that is a Number, and with no [response]; the error is
    the raw body of the answer whenever that body is read. *)
Theorem remote_error_gives_a_failure_envelope
    model message temperature maxTokens x r :
  reply x = Normal r ->
  ok r = false ->
  exists v error rt,
    result_in x model message temperature maxTokens = Normal v
    /\ field "model" v = Some (VStr model)
    /\ field "error" v = Some (VStr error)
    /\ field "responseTime" v = Some (VNum rt)
    /\ isNaN rt = false
    /\ has_field v "response" = false
    /\ (forall errorText, text r = Normal errorText -> error = errorText).
Proof.
  intros Hr Hok. unfold helper_result.
  destruct (text r) as [body|e] eqn:Ht.
  - rewrite (helper_remote_error GITHUB_TOKEN model message temperature maxTokens
               x 0 [] r body Hr Hok Ht).
    eexists _, body, _. repeat split; try reflexivity.
    + apply number_of_Z_not_NaN.
    + intros errorText H. injection H as <-. reflexivity.
  - rewrite (helper_remote_error_unread GITHUB_TOKEN model message temperature
               maxTokens x 0 [] r e Hr Hok Ht).
    eexists _, (JS.message e), _. repeat split; try reflexivity.
    + apply number_of_Z_not_NaN.
    + intros errorText H. discriminate H.
Qed.

(** C7.  [getPublisher] is a total function that follows the ordered
    prefix rules [gpt-], [Meta-Llama], [Mistral], [Phi-], [Cohere], [AI21],
    [Qwen], the first rule that matches giving the label and [Unknown]
    being the label when none matches; the prefixes are compared code unit
    by code unit, so case matters; and every identifier of the registry
    gets one of the seven publisher labels, never [Unknown]. *)
Theorem getPublisher_follows_the_rules :
  (forall id, getPublisher id = first_match publisher_rules id)
  /\ Forall (fun id => In (getPublisher id) publishers
                       /\ getPublisher id <> "Unknown") MODELS
  /\ publishers
     = ["OpenAI"; "Meta"; "Mistral"; "Microsoft"; "Cohere"; "AI21 Labs"; "Qwen"]
  /\ NoDup publishers
  /\ getPublisher "GPT-4o" = "Unknown"
  /\ getPublisher "gpt-Meta-Llama" = "OpenAI".
Proof.
  split; [intros id; reflexivity|].
  split.
  { apply Forall_forall. intros id Hin. unfold MODELS in Hin. simpl in Hin.
    repeat (destruct Hin as [<-|Hin];
            [split; [vm_compute; auto 10|vm_compute; discriminate]|]).
    contradiction. }
  split; [reflexivity|].
  split.
  { unfold publishers, publisher_rules. simpl.
    repeat constructor; simpl; intuition discriminate. }
  split; reflexivity.
Qed.


(** C9 (amended).  The helper never throws to its caller.  Whatever its
    arguments and whatever the exchange (a success, a non-success status,
    a rejected [fetch], an unreadable or malformed body), it returns an
    object that holds the model it was given and a [responseTime] that is
    a Number, never NaN, and nonnegative whenever the clock is not set
    back during the call.  Hence the join of the compare fan-out never
    rejects: for every list of models it yields one result per model. *)
Theorem helper_never_throws :
  (forall model message temperature maxTokens x,
      exists v rt,
        fst (helper model message temperature maxTokens (mkInvocation x 0 []))
        = Normal v
        /\ field "model" v = Some (VStr model)
        /\ field "responseTime" v = Some (VNum rt)
        /\ isNaN rt = false
        /\ (monotone (clock x) -> nonnegative rt = true))
  /\ (forall message temp maxTok l w,
         exists results w',
           bind (mapM (fun model =>
                         async (invoke (helper model message (Some temp) (Some maxTok))))
                      l)
                (fun promises => settle (Promise_all promises)) w
           = (Normal results, w')
           /\ List.length results = List.length l).
Proof.
  split.
  - intros model message temperature maxTokens x.
    rewrite helper_defaults.
    destruct (helper_settles GITHUB_TOKEN model message
                (default_to number_0_7 temperature)
                (default_to number_1000 maxTokens) x 0 [])
      as (v & j & reads & Hrun & Hj & Hshape).
    rewrite Hrun. exists v, (elapsed x 0 j).
    split; [reflexivity|].
    assert (Hnn : monotone (clock x) -> nonnegative (elapsed x 0 j) = true)
      by (intros Hc; apply elapsed_nonnegative; [exact Hc|lia]).
    destruct Hshape as [[e ->]|(response & usage & ->)];
      (split; [reflexivity|]); (split; [reflexivity|]);
      (split; [apply number_of_Z_not_NaN|exact Hnn]).
  - intros message temp maxTok l w. unfold bind.
    rewrite fan_out.
    rewrite <- (List.map_map
                  (fun im => value_in (network w (fst im)) (snd im) message temp maxTok)
                  Normal).
    unfold settle. rewrite Promise_all_fulfilled.
    eexists _, _. split; [reflexivity|].
    rewrite length_map. unfold indexed_from.
    rewrite length_combine, length_seq. apply Nat.min_id.
Qed.


End Claims.

(* ================================================================== *)
(** ** The claims at concrete requests                                 *)
(* ================================================================== *)

Lemma steady_clock_monotone : monotone steady_clock.
Proof. intros i j Hij. unfold steady_clock. lia. Defined.


(** C3 at the identifier [unknown-model]. *)
Lemma unknown_model_witness :
  includes MODELS "unknown-model" = false
  /\ In "unknown-model" (modelsList "gpt-4o,unknown-model")
  /\ serve (chat_handler sample_token
              (mkHttpRequest "unknown-model"
                 (mkQuery (Some (QStr "Hi")) None None None))) sample_network
     = (Normal (model_not_found "unknown-model"), [])
  /\ serve (compare_handler sample_token
              (mkHttpRequest EmptyString
                 (mkQuery (Some (QStr "Hi")) (Some (QStr "gpt-4o,unknown-model"))
                          None None))) sample_network
     = (Normal (invalid_models "Invalid models: unknown-model"), []).
Proof.
  assert (H1 : includes MODELS "unknown-model" = false) by reflexivity.
  assert (H2 : In "unknown-model" (modelsList "gpt-4o,unknown-model"))
    by (right; left; reflexivity).
  split; [exact H1|]. split; [exact H2|].
  destruct (unknown_model_is_rejected sample_token "unknown-model" H1)
    as [Hchat Hcompare].
  split; [apply Hchat|].
  destruct (Hcompare sample_network EmptyString (Some (QStr "Hi"))
              "gpt-4o,unknown-model" None None H2)
    as (response & Hrun & _ & Hreport).
  destruct (Hreport "Hi" eq_refl ltac:(discriminate) ltac:(discriminate))
    as (error & -> & -> & _).
  exact Hrun.
Defined.

(** C4 at requests that carry no [q]. *)
Lemma missing_q_witness :
  (@None qvalue = None \/ @None qvalue = Some (QStr EmptyString))
  /\ includes MODELS "gpt-4o" = true
  /\ serve (chat_handler sample_token
              (mkHttpRequest "gpt-4o" (mkQuery None None None None))) sample_network
     = (Normal (q_required "/api/models/gpt-4o/chat?q=Hello world"), [])
  /\ serve (compare_handler sample_token
              (mkHttpRequest EmptyString
                 (mkQuery None (Some (QStr "gpt-4o")) None None))) sample_network
     = (Normal (q_required
          "/api/compare?q=Hello world&models=gpt-4o,Meta-Llama-3.1-8B-Instruct"), []).
Proof.
  assert (H1 : @None qvalue = None \/ @None qvalue = Some (QStr EmptyString))
    by (left; reflexivity).
  assert (H2 : includes MODELS "gpt-4o" = true) by reflexivity.
  split; [exact H1|]. split; [exact H2|].
  destruct (missing_q_is_a_bad_request sample_token None H1) as [Hchat Hcompare].
  split; [apply (Hchat sample_network "gpt-4o" None None None H2)|apply Hcompare].
Defined.

(** C5 at a list with a valid model and a repeated invalid one. *)
Lemma every_invalid_model_witness :
  "Hi" <> EmptyString
  /\ "gpt-4o,bogus-1, bogus-2 ,bogus-1" <> EmptyString
  /\ Exists (fun model => includes MODELS model = false)
            (modelsList "gpt-4o,bogus-1, bogus-2 ,bogus-1")
  /\ serve (compare_handler sample_token
              (mkHttpRequest EmptyString
                 (mkQuery (Some (QStr "Hi"))
                          (Some (QStr "gpt-4o,bogus-1, bogus-2 ,bogus-1"))
                          None None))) sample_network
     = (Normal (invalid_models "Invalid models: bogus-1, bogus-2, bogus-1"), []).
Proof.
  assert (H1 : "Hi" <> EmptyString) by discriminate.
  assert (H2 : "gpt-4o,bogus-1, bogus-2 ,bogus-1" <> EmptyString) by discriminate.
  assert (H3 : Exists (fun model => includes MODELS model = false)
                      (modelsList "gpt-4o,bogus-1, bogus-2 ,bogus-1"))
    by (apply Exists_exists; exists "bogus-1"; split;
        [vm_compute; auto|reflexivity]).
  split; [exact H1|]. split; [exact H2|]. split; [exact H3|].
  destruct (compare_reports_every_invalid_model sample_token sample_network
              EmptyString "Hi" "gpt-4o,bogus-1, bogus-2 ,bogus-1" None None H1 H2 H3)
    as (error & Hrun & -> & _).
  exact Hrun.
Defined.

(** C6 at an endpoint that answers 429 with a body. *)
Lemma remote_error_witness :
  reply busy = Normal (error_reply "Too Many Requests")
  /\ ok (error_reply "Too Many Requests") = false
  /\ exists v,
       helper_result sample_token busy "gpt-4o" "Hi" number_0_7 number_1000 = Normal v
       /\ field "error" v = Some (VStr "Too Many Requests")
       /\ has_field v "response" = false.
Proof.
  split; [reflexivity|]. split; [reflexivity|].
  destruct (remote_error_gives_a_failure_envelope sample_token "gpt-4o" "Hi"
              number_0_7 number_1000 busy (error_reply "Too Many Requests")
              eq_refl eq_refl)
    as (v & error & rt & Hrun & _ & Herror & _ & _ & Hnone & Hbody).
  exists v. split; [exact Hrun|]. split; [|exact Hnone].
  rewrite Herror, (Hbody "Too Many Requests" eq_refl). reflexivity.
Defined.


(** C9 at an endpoint that cannot be reached, under a steady clock. *)
Lemma never_throws_witness :
  monotone (clock unreachable)
  /\ exists v rt,
       fst (callGitHubModel sample_token "gpt-4o" "Hi" None None
              (mkInvocation unreachable 0 []))
       = Normal v
       /\ field "model" v = Some (VStr "gpt-4o")
       /\ field "responseTime" v = Some (VNum rt)
       /\ nonnegative rt = true.
Proof.
  split; [exact steady_clock_monotone|].
  destruct (helper_never_throws sample_token) as [Hhelper _].
  destruct (Hhelper "gpt-4o" "Hi" None None unreachable)
    as (v & rt & Hrun & Hmodel & Htime & _ & Hclock).
  exists v, rt. repeat split; try assumption.
  apply Hclock. exact steady_clock_monotone.
Defined.


(** *** Where the unconditional forms fail *)

(** C3 as first stated fails: a compare request without [q] whose model
    list holds an identifier outside the registry is answered 400, but the
    report is about [q]; it does not name the identifier nor speak of
    invalid models. *)
Lemma compare_without_q_does_not_name_the_model :
  serve (compare_handler sample_token
           (mkHttpRequest EmptyString
              (mkQuery None (Some (QStr "unknown-model")) None None)))
        sample_network
  = (Normal (mkHttpResponse 400
       (VObj [ ("error", VStr "Query parameter 'q' is required");
               ("example",
                VStr "/api/compare?q=Hello world&models=gpt-4o,Meta-Llama-3.1-8B-Instruct") ])),
     [])
  /\ contains "Query parameter 'q' is required" "unknown-model" = false
  /\ ~ unknown_model_always_reported sample_token.
Proof.
  split; [reflexivity|]. split; [reflexivity|].
  intros H. destruct (H "unknown-model" eq_refl) as [_ Hcompare].
  destruct (Hcompare sample_network EmptyString None "unknown-model" None None
              (or_introl eq_refl))
    as (response & Hrun & _ & error & Herror & Hnames).
  rewrite compare_missing_q in Hrun by reflexivity.
  injection Hrun as <-. injection Herror as <-. discriminate Hnames.
Qed.

(** C4 as first stated fails: a chat request without [q] for a model
    outside the registry is answered 404, not 400, and carries no usage
    example. *)
Lemma chat_without_q_for_an_unknown_model_is_404 :
  serve (chat_handler sample_token
           (mkHttpRequest "unknown-model" (mkQuery None None None None)))
        sample_network
  = (Normal (mkHttpResponse 404
       (VObj [ ("error", VStr "Model 'unknown-model' not found");
               ("available_models", VArr (List.map VStr MODELS)) ])),
     [])
  /\ ~ missing_q_always_400 sample_token.
Proof.
  split; [reflexivity|].
  intros H.
  destruct (H None (or_introl eq_refl) sample_network "unknown-model" None None None)
    as [(response & Hrun & Hstatus & _) _].
  rewrite chat_unknown_model in Hrun by reflexivity.
  injection Hrun as <-. discriminate Hstatus.
Qed.

(** C5 as first stated fails: a compare request with an empty [q] and two
    identifiers outside the registry in its list is answered with one 400
    that reports neither of them. *)
Lemma compare_with_empty_q_reports_no_invalid_model :
  invalid_of (modelsList "gpt-4o,bogus-1,bogus-2") = ["bogus-1"; "bogus-2"]
  /\ serve (compare_handler sample_token
              (mkHttpRequest EmptyString
                 (mkQuery (Some (QStr EmptyString))
                          (Some (QStr "gpt-4o,bogus-1,bogus-2")) None None)))
           sample_network
     = (Normal (mkHttpResponse 400
          (VObj [ ("error", VStr "Query parameter 'q' is required");
                  ("example",
                   VStr "/api/compare?q=Hello world&models=gpt-4o,Meta-Llama-3.1-8B-Instruct") ])),
        [])
  /\ contains "Query parameter 'q' is required" "bogus-1" = false
  /\ contains "Query parameter 'q' is required" "bogus-2" = false
  /\ ~ invalid_models_always_listed sample_token.
Proof.
  split; [reflexivity|]. split; [reflexivity|].
  split; [reflexivity|]. split; [reflexivity|].
  intros H.
  assert (Hbad : Exists (fun model => includes MODELS model = false)
                        (modelsList "gpt-4o,bogus-1,bogus-2"))
    by (apply Exists_exists; exists "bogus-1"; split;
        [vm_compute; auto|reflexivity]).
  destruct (H sample_network EmptyString (Some (QStr EmptyString))
              "gpt-4o,bogus-1,bogus-2" None None Hbad)
    as (response & Hrun & _ & Hnames).
  rewrite compare_missing_q in Hrun by reflexivity.
  injection Hrun as <-.
  destruct (Hnames "bogus-1") as (error & Herror & Hcontains);
    [vm_compute; auto|reflexivity|].
  injection Herror as <-. discriminate Hcontains.
Qed.



(** C9 as first stated fails: when the clock is set back by 40 ms between
    the two readings, the [responseTime] of the result is -40. *)
Lemma a_clock_set_back_gives_a_negative_responseTime :
  helper_result sample_token clock_set_back "gpt-4o" "Hi" number_0_7 number_1000
  = Normal (failure_envelope "gpt-4o" "Too Many Requests" (number_of_Z (-40)))
  /\ nonnegative (number_of_Z (-40)) = false
  /\ ~ monotone (clock clock_set_back)
  /\ ~ responseTime_always_nonnegative sample_token.
Proof.
  assert (Hrun : helper_result sample_token clock_set_back "gpt-4o" "Hi"
                   number_0_7 number_1000
                 = Normal (failure_envelope "gpt-4o" "Too Many Requests"
                             (number_of_Z (-40)))) by reflexivity.
  split; [exact Hrun|]. split; [reflexivity|]. split.
  - intros H. specialize (H 0%nat 1%nat ltac:(lia)). vm_compute in H.
    apply H. reflexivity.
  - intros H.
    destruct (H "gpt-4o" "Hi" number_0_7 number_1000 clock_set_back)
      as (v & rt & Hv & Hrt & Hnn).
    rewrite Hrun in Hv. injection Hv as <-.
    injection Hrt as <-. discriminate Hnn.
Qed.

(* ================================================================== *)
(** ** Beyond the claims                                               *)
(* ================================================================== *)

(** *** The model list as text *)

Lemma split_never_empty sep s : split sep s <> [].
Proof.
  destruct s as [|c r]; simpl; [discriminate|].
  destruct (Ascii.eqb c sep); [discriminate|].
  destruct (split sep r); discriminate.
Qed.

(** [(a + sep + b).split(sep)] is [a.split(sep)] followed by
    [b.split(sep)]. *)
Lemma split_app sep a b :
  split sep (a ++ String sep b) = (split sep a ++ split sep b)%list.
Proof.
  induction a as [|c a IH]; cbn [append split].
  - rewrite Ascii.eqb_refl. reflexivity.
  - destruct (Ascii.eqb c sep); [rewrite IH; reflexivity|].
    rewrite IH. destruct (split sep a) as [|piece pieces] eqn:E.
    + exfalso. exact (split_never_empty sep a E).
    + reflexivity.
Qed.

Lemma modelsList_app a b :
  modelsList (a ++ "," ++ b) = (modelsList a ++ modelsList b)%list.
Proof.
  unfold modelsList. cbn [append].
  rewrite split_app, List.map_app. reflexivity.
Qed.

Lemma invalid_of_app l1 l2 :
  invalid_of (l1 ++ l2) = (invalid_of l1 ++ invalid_of l2)%list.
Proof. unfold invalid_of. apply filter_app. Qed.

Lemma includes_In l x : includes l x = true <-> In x l.
Proof.
  unfold includes. rewrite existsb_exists. split.
  - intros (y & Hin & Heq). apply String.eqb_eq in Heq. subst. exact Hin.
  - intros Hin. exists x. split; [exact Hin|apply String.eqb_refl].
Qed.

Lemma invalid_of_nil l :
  invalid_of l = [] <-> Forall (fun model => includes MODELS model = true) l.
Proof.
  unfold invalid_of. induction l as [|a l IH]; cbn [List.filter].
  - split; auto.
  - destruct (includes MODELS a) eqn:Ha; cbn [negb].
    + split.
      * intros H. constructor; [exact Ha|apply IH; exact H].
      * intros H. inversion H. apply IH. assumption.
    + split; [discriminate|]. intros H. inversion H. congruence.
Qed.

(** An identifier of the registry has no comma and no white space around
    it: as a list, it is the list of itself. *)
Lemma registry_entry_parses m :
  includes MODELS m = true -> modelsList m = [m].
Proof.
  intros H. apply includes_In in H. revert m H. apply Forall_forall.
  unfold MODELS. repeat constructor.
Qed.

Lemma join_cons sep a b l :
  join sep (a :: b :: l) = (a ++ sep ++ join sep (b :: l))%string.
Proof. reflexivity. Qed.

Lemma modelsList_join_comma l :
  l <> [] ->
  Forall (fun model => includes MODELS model = true) l ->
  modelsList (join "," l) = l.
Proof.
  induction l as [|a l IH]; [contradiction|]. intros _ Hall.
  inversion Hall as [|? ? Ha Hl]; subst.
  destruct l as [|b l]; [apply registry_entry_parses; exact Ha|].
  rewrite join_cons, modelsList_app, (registry_entry_parses a Ha).
  rewrite IH; [reflexivity|discriminate|exact Hl].
Qed.

Lemma modelsList_leading_space s : modelsList (String " " s) = modelsList s.
Proof.
  unfold modelsList. cbn [split]. change (Ascii.eqb " " ",") with false. cbv iota.
  destruct (split "," s) as [|piece pieces] eqn:E.
  - exfalso. exact (split_never_empty _ _ E).
  - reflexivity.
Qed.

Lemma modelsList_join_comma_space l :
  l <> [] ->
  Forall (fun model => includes MODELS model = true) l ->
  modelsList (join ", " l) = l.
Proof.
  induction l as [|a l IH]; [contradiction|]. intros _ Hall.
  inversion Hall as [|? ? Ha Hl]; subst.
  destruct l as [|b l]; [apply registry_entry_parses; exact Ha|].
  rewrite join_cons.
  change (a ++ ", " ++ join ", " (b :: l))%string
    with (a ++ "," ++ String " " (join ", " (b :: l)))%string.
  rewrite modelsList_app, (registry_entry_parses a Ha), modelsList_leading_space.
  rewrite IH; [reflexivity|discriminate|exact Hl].
Qed.

Lemma nth_map_indexed {A B} (f : nat * A -> B) (l : list A) (d : B) (da : A) :
  forall k i, (i < List.length l)%nat ->
    nth i (List.map f (indexed_from k l)) d = f ((k + i)%nat, nth i l da).
Proof.
  unfold indexed_from. induction l as [|a l IH]; intros k i Hi; simpl in Hi; [lia|].
  destruct i as [|i]; cbn [List.length seq combine List.map nth].
  - rewrite Nat.add_0_r. reflexivity.
  - rewrite IH by lia. rewrite Nat.add_succ_r. reflexivity.
Qed.

(** *** The publisher rules *)

Lemma prefix_cons_inv c p id :
  String.prefix (String c p) id = true ->
  exists r, id = String c r /\ String.prefix p r = true.
Proof.
  destruct id as [|d r]; simpl; [discriminate|].
  destruct (ascii_dec c d) as [<-|]; [eauto|discriminate].
Qed.

Ltac prefixes_clash A B :=
  let E := fresh "E" in
  let E' := fresh "E" in
  apply prefix_cons_inv in A as (? & -> & A);
  apply prefix_cons_inv in B as (? & E & B);
  first
    [ discriminate E
    | injection E as <-;
      apply prefix_cons_inv in A as (? & -> & A);
      apply prefix_cons_inv in B as (? & E' & B);
      discriminate E' ].

(** No identifier begins with the prefixes of two rules. *)
Lemma publisher_rules_exclusive id p1 l1 p2 l2 :
  In (p1, l1) publisher_rules -> In (p2, l2) publisher_rules ->
  String.prefix p1 id = true -> String.prefix p2 id = true ->
  (p1, l1) = (p2, l2).
Proof.
  unfold publisher_rules. cbn [In]. intros H1 H2.
  repeat (destruct H1 as [H1|H1]; [injection H1 as <- <-|]); try contradiction;
    repeat (destruct H2 as [H2|H2]; [injection H2 as <- <-|]); try contradiction;
    intros A B; try reflexivity; prefixes_clash A B.
Qed.

Lemma first_match_spec rules id :
  (exists p l, In (p, l) rules /\ String.prefix p id = true
               /\ first_match rules id = l)
  \/ ((forall p l, In (p, l) rules -> String.prefix p id = false)
      /\ first_match rules id = "Unknown").
Proof.
  induction rules as [|[p l] rules IH]; cbn [first_match].
  - right. split; [intros p l []|reflexivity].
  - destruct (String.prefix p id) eqn:Hp.
    + left. exists p, l. split; [left; reflexivity|]. split; [exact Hp|reflexivity].
    + destruct IH as [(p' & l' & Hin & Hm & Hf)|[Hnone Hf]].
      * left. exists p', l'. split; [right; exact Hin|]. split; assumption.
      * right. split; [|exact Hf]. intros p' l' [E|Hin].
        -- injection E as <- <-. exact Hp.
        -- apply Hnone with l'. exact Hin.
Qed.

(** *** The helper and the handlers *)

Section Beyond.

Variable GITHUB_TOKEN : string.

Local Abbreviation helper := (callGitHubModel GITHUB_TOKEN).
Local Abbreviation request_for := (outbound_request GITHUB_TOKEN).
Local Abbreviation value_in := (helper_value GITHUB_TOKEN).

(** The value of an invocation, with what the success envelope holds. *)
Lemma helper_value_cases x model message t k :
  (exists e j, (0 < j)%nat
      /\ value_in x model message t k = failure_envelope model e (elapsed x 0 j))
  \/ (exists content usage,
        value_in x model message t k
        = success_envelope model (or_else content (VStr EmptyString)) usage
            (elapsed x 0 1)).
Proof.
  unfold helper_value, helper_result.
  destruct (reply x) as [r|e] eqn:Hr.
  2:{ rewrite (helper_transport_failure GITHUB_TOKEN model message t k x 0 [] e Hr).
      left. exists (JS.message e), 1%nat. split; [lia|reflexivity]. }
  destruct (ok r) eqn:Hok.
  - destruct (json r) as [result|e] eqn:Hj.
    2:{ rewrite (helper_bad_json GITHUB_TOKEN model message t k x 0 [] r e Hr Hok Hj).
        left. exists (JS.message e), 2%nat. split; [lia|reflexivity]. }
    destruct (nullish result) eqn:Hn.
    + destruct (first_content_nullish_throws result Hn) as [e He].
      rewrite (helper_null_json GITHUB_TOKEN model message t k x 0 [] r result e
                 Hr Hok Hj He).
      left. exists (JS.message e), 2%nat. split; [lia|reflexivity].
    + destruct (first_content_defined result Hn) as [c Hc].
      destruct (get_defined result "usage" Hn) as [u Hu].
      rewrite (helper_success GITHUB_TOKEN model message t k x 0 [] r result c u
                 Hr Hok Hj Hc Hu).
      right. exists c, u. reflexivity.
  - destruct (text r) as [b|e] eqn:Ht.
    + rewrite (helper_remote_error GITHUB_TOKEN model message t k x 0 [] r b Hr Hok Ht).
      left. exists b, 1%nat. split; [lia|reflexivity].
    + rewrite (helper_remote_error_unread GITHUB_TOKEN model message t k x 0 [] r e
                 Hr Hok Ht).
      left. exists (JS.message e), 2%nat. split; [lia|reflexivity].
Qed.

Lemma chat_status_values v : chat_status v = 200%nat \/ chat_status v = 500%nat.
Proof.
  unfold chat_status. destruct (field "error" v) as [e|]; [destruct (truthy e)|]; auto.
Qed.

(** X1.  Whatever the exchange and wherever the invocation ends (a success,
    a non-success status, a rejected [fetch], a body that cannot be read or
    is not JSON), the helper hands exactly one request to [fetch]: a POST
    to the fixed endpoint, with the bearer token and the JSON content
    type, whose body holds the model, one user message with the query
    text, the temperature and [max_tokens] (0.7 and 1000 when the
    arguments are left out).  It never retries. *)
Theorem helper_posts_exactly_one_request
    model message temperature maxTokens x n sent :
  posted (snd (helper model message temperature maxTokens (mkInvocation x n sent)))
  = (sent ++
     [ mkRequest "https://models.inference.ai.azure.com/chat/completions" "POST"
         [ ("Authorization", ("Bearer " ++ GITHUB_TOKEN)%string);
           ("Content-Type", "application/json") ]
         (VObj [ ("model", VStr model);
                 ("messages",
                  VArr [ VObj [ ("role", VStr "user"); ("content", VStr message) ] ]);
                 ("temperature", VNum (default_to number_0_7 temperature));
                 ("max_tokens", VNum (default_to number_1000 maxTokens)) ]) ])%list.
Proof.
  rewrite helper_defaults.
  destruct (helper_settles GITHUB_TOKEN model message
              (default_to number_0_7 temperature)
              (default_to number_1000 maxTokens) x n sent)
    as (v & j & reads & Hrun & _).
  rewrite Hrun. reflexivity.
Qed.

(** X2.  Every helper result has a [model] and a [responseTime], and
    exactly one of [error] and [response]; [usage] comes with [response]
    only.  The error is always a string, and the response is never a falsy
    value other than the empty string (never [null], [undefined], 0 or
    [false]). *)
Theorem helper_result_is_one_envelope model message t k x :
  let v := value_in x model message t k in
  has_field v "model" = true
  /\ has_field v "responseTime" = true
  /\ has_field v "error" = negb (has_field v "response")
  /\ has_field v "usage" = has_field v "response"
  /\ (forall e, field "error" v = Some e -> exists text, e = VStr text)
  /\ (forall r, field "response" v = Some r ->
      r = VStr EmptyString \/ truthy r = true).
Proof.
  intros v. unfold v.
  destruct (helper_value_cases x model message t k)
    as [(e & j & _ & ->)|(c & u & ->)].
  - repeat split; try reflexivity.
    + intros e' H. injection H as <-. eauto.
    + intros r H. discriminate H.
  - repeat split; try reflexivity.
    + intros e' H. discriminate H.
    + intros r H. injection H as <-. unfold or_else.
      destruct (truthy c) eqn:Hc; [right; exact Hc|left; reflexivity].
Qed.

(** X3.  When [fetch] itself rejects (the endpoint cannot be reached), the
    helper turns the exception into the failure envelope that carries its
    message, timed at the catch clause; for a request that passes the
    checks and whose number parameters are converted, the chat handler
    answers with it under status 500 when that message is not empty. *)
Theorem chat_reports_a_transport_failure
    net modelId qs models temperature max_tokens t k e :
  includes MODELS modelId = true ->
  qs <> EmptyString ->
  temp_of temperature = Normal t ->
  maxTok_of max_tokens = Normal k ->
  reply (net 0%nat) = Throw e ->
  JS.message e <> EmptyString ->
  serve (chat_handler GITHUB_TOKEN
           (mkHttpRequest modelId
              (mkQuery (Some (QStr qs)) models temperature max_tokens))) net
  = (Normal (mkHttpResponse 500
       (VObj [ ("model", VStr modelId);
               ("error", VStr (JS.message e));
               ("responseTime", VNum (elapsed (net 0%nat) 0 1)) ])),
     [request_for modelId qs t k]).
Proof.
  intros Hm Hqs Ht Hk Hr He.
  assert (Hq : required_string (Some (QStr qs)) = Some qs)
    by (apply required_string_Some; auto).
  rewrite (chat_validated GITHUB_TOKEN net modelId _ qs models temperature
             max_tokens t k Hm Hq Ht Hk).
  unfold helper_value, helper_result.
  rewrite (helper_transport_failure GITHUB_TOKEN modelId qs _ _ (net 0%nat) 0 [] e Hr).
  cbn [fst]. unfold chat_status, failure_envelope. cbn [field lookup String.eqb].
  destruct (JS.message e) as [|c rest]; [contradiction|reflexivity].
Qed.

(** X4.  A success status does not make a success result: when the body is
    not JSON ([response.json()] rejects) or is the document [null] (the
    read of [choices] throws), the helper still returns, with the failure
    envelope that carries the message of the exception, timed at the catch
    clause (the third reading of the clock). *)
Theorem malformed_success_body_is_a_failure model message t k x r :
  reply x = Normal r ->
  ok r = true ->
  (forall e, json r = Throw e ->
     helper_result GITHUB_TOKEN x model message t k
     = Normal (failure_envelope model (JS.message e) (elapsed x 0 2)))
  /\ (json r = Normal VNull ->
      helper_result GITHUB_TOKEN x model message t k
      = Normal (failure_envelope model
                  "Cannot read properties of null (reading 'choices')"
                  (elapsed x 0 2))).
Proof.
  intros Hr Hok. unfold helper_result. split.
  - intros e Hj.
    rewrite (helper_bad_json GITHUB_TOKEN model message t k x 0 [] r e Hr Hok Hj).
    reflexivity.
  - intros Hj.
    rewrite (helper_null_json GITHUB_TOKEN model message t k x 0 [] r VNull
               (TypeError "Cannot read properties of null (reading 'choices')")
               Hr Hok Hj eq_refl).
    reflexivity.
Qed.

(** X5.  For a chat request that passes both checks and whose number
    parameters are converted, the payload is the helper result as it is,
    and the status is 500 exactly when that result has a non-empty error
    text; it is 200 for every success result and for a failure result
    whose error text is empty. *)
Theorem chat_status_follows_the_error_text
    net modelId qs models temperature max_tokens t k :
  includes MODELS modelId = true ->
  qs <> EmptyString ->
  temp_of temperature = Normal t ->
  maxTok_of max_tokens = Normal k ->
  exists response,
    serve (chat_handler GITHUB_TOKEN
             (mkHttpRequest modelId
                (mkQuery (Some (QStr qs)) models temperature max_tokens))) net
    = (Normal response, [request_for modelId qs t k])
    /\ payload response = value_in (net 0%nat) modelId qs t k
    /\ (status response = 500%nat
        <-> exists text, field "error" (payload response) = Some (VStr text)
                         /\ text <> EmptyString)
    /\ (status response = 200%nat
        <-> has_field (payload response) "response" = true
            \/ field "error" (payload response) = Some (VStr EmptyString)).
Proof.
  intros Hm Hqs Ht Hk.
  assert (Hq : required_string (Some (QStr qs)) = Some qs)
    by (apply required_string_Some; auto).
  rewrite (chat_validated GITHUB_TOKEN net modelId _ qs models temperature
             max_tokens t k Hm Hq Ht Hk).
  eexists. split; [reflexivity|]. split; [reflexivity|]. cbn [status payload].
  destruct (helper_value_cases (net 0%nat) modelId qs t k)
    as [(e & j & _ & ->)|(c & u & ->)]; unfold chat_status.
  - cbn. destruct e as [|a e]; cbn; split; split.
    + discriminate.
    + intros (text & H & Hne). injection H as <-. contradiction.
    + intros _. right. reflexivity.
    + reflexivity.
    + intros _. exists (String a e). split; [reflexivity|discriminate].
    + reflexivity.
    + discriminate.
    + intros [H|H]; discriminate H.
  - cbn. split; split.
    + discriminate.
    + intros (text & H & _). discriminate H.
    + intros _. left. reflexivity.
    + reflexivity.
Qed.

Lemma conversions_settle temperature max_tokens :
  (exists t k, temp_of temperature = Normal t /\ maxTok_of max_tokens = Normal k)
  \/ (exists e, temp_of temperature = Throw e
                \/ (exists t, temp_of temperature = Normal t)
                   /\ maxTok_of max_tokens = Throw e).
Proof.
  destruct (temp_of temperature) as [t|e] eqn:Ht; [|right; eauto].
  destruct (maxTok_of max_tokens) as [k|e] eqn:Hk; [left; eauto|].
  right. exists e. right. split; [eauto|reflexivity].
Qed.

(** X6.  The chat handler posts at most one outbound request, and exactly
    one when it answers 200 or 500, which is for the model of the path.
    A 404, a 400, and the TypeError thrown when [temperature] or
    [max_tokens] cannot be converted to a string, all come with no
    outbound request. *)
Theorem chat_posts_at_most_one_request net req :
  match serve (chat_handler GITHUB_TOKEN req) net with
  | (Normal response, sent) =>
      (status response = 404%nat /\ sent = []
       /\ includes MODELS (modelId_param req) = false)
      \/ (status response = 400%nat /\ sent = []
          /\ includes MODELS (modelId_param req) = true)
      \/ ((status response = 200%nat \/ status response = 500%nat)
          /\ exists rq, sent = [rq]
             /\ field "model" (body rq) = Some (VStr (modelId_param req)))
  | (Throw e, sent) =>
      sent = []
      /\ (temp_of (temperature (query req)) = Throw e
          \/ maxTok_of (max_tokens (query req)) = Throw e)
  end.
Proof.
  destruct req as [modelId [q models temperature max_tokens]].
  cbn [modelId_param query Kire.temperature Kire.max_tokens].
  destruct (includes MODELS modelId) eqn:Hm.
  2:{ rewrite (chat_unknown_model GITHUB_TOKEN net modelId _ Hm). left. auto. }
  destruct (required_string q) as [qs|] eqn:Hq.
  2:{ rewrite (chat_missing_q GITHUB_TOKEN net modelId q models temperature
                 max_tokens Hm Hq). right. left. auto. }
  destruct (conversions_settle temperature max_tokens)
    as [(t & k & Ht & Hk)|[e He]].
  - rewrite (chat_validated GITHUB_TOKEN net modelId q qs models temperature
               max_tokens t k Hm Hq Ht Hk).
    right. right. cbn [status]. split.
    + destruct (chat_status_values (value_in (net 0%nat) modelId qs t k)); auto.
    + eexists. split; reflexivity.
  - rewrite (chat_conversion_throws GITHUB_TOKEN net modelId q qs models
               temperature max_tokens e Hm Hq He).
    split; [reflexivity|]. destruct He as [He|[_ He]]; auto.
Qed.

(** X7.  The compare handler is all or nothing: it answers 400 with no
    outbound request at all, or 200 with one outbound request and one
    result per entry of the model list, and it never answers 500, however
    many calls fail.  The TypeError thrown when [temperature] or
    [max_tokens] cannot be converted to a string comes with no outbound
    request either. *)
Theorem compare_is_all_or_nothing net req :
  match serve (compare_handler GITHUB_TOKEN req) net with
  | (Normal response, sent) =>
      (status response = 400%nat /\ sent = [])
      \/ (status response = 200%nat
          /\ exists ms results,
               models (query req) = Some (QStr ms)
               /\ payload response = VObj [ ("results", VArr results) ]
               /\ List.length results = List.length (modelsList ms)
               /\ List.length sent = List.length (modelsList ms))
  | (Throw e, sent) =>
      sent = []
      /\ (temp_of (temperature (query req)) = Throw e
          \/ maxTok_of (max_tokens (query req)) = Throw e)
  end.
Proof.
  destruct req as [modelId [q models temperature max_tokens]].
  cbn [query Kire.models Kire.temperature Kire.max_tokens].
  destruct (required_string q) as [qs|] eqn:Hq.
  2:{ rewrite (compare_missing_q GITHUB_TOKEN net modelId q models temperature
                 max_tokens Hq). left. auto. }
  destruct (required_string models) as [ms|] eqn:Hms.
  2:{ destruct (compare_missing_models GITHUB_TOKEN net modelId q qs models
                  temperature max_tokens Hq Hms) as (payload & Hrun & _).
      rewrite Hrun. left. auto. }
  destruct (invalid_of (modelsList ms)) as [|bad rest] eqn:Hbad.
  2:{ rewrite (compare_invalid_models GITHUB_TOKEN net modelId q qs models ms
                 temperature max_tokens Hq Hms)
        by (rewrite Hbad; discriminate).
      left. auto. }
  apply invalid_of_nil in Hbad.
  destruct (conversions_settle temperature max_tokens)
    as [(t & k & Ht & Hk)|[e He]].
  - rewrite (compare_validated GITHUB_TOKEN net modelId q qs models ms temperature
               max_tokens t k Hq Hms Hbad Ht Hk).
    right. split; [reflexivity|].
    apply required_string_Some in Hms as [-> _].
    eexists _, _. split; [reflexivity|]. split; [reflexivity|].
    rewrite !length_map. unfold indexed_from.
    rewrite length_combine, length_seq, Nat.min_id. auto.
  - rewrite (compare_conversion_throws GITHUB_TOKEN net modelId q qs models ms
               temperature max_tokens e Hq Hms Hbad He).
    split; [reflexivity|]. destruct He as [He|[_ He]]; auto.
Qed.

Lemma not_a_string_is_rejected q : is_string q = false -> required_string q = None.
Proof. intros H. unfold required_string. rewrite H, orb_true_r. reflexivity. Qed.

Lemma registry_has_no_empty_name m : includes MODELS m = true -> m <> EmptyString.
Proof. intros H ->. discriminate H. Qed.

(** X8.  A [q] that is not a string, as Express delivers it when the key is
    given twice ([?q=a&q=b]) or with brackets, is turned away like a
    missing one: 400 with the usage example and no outbound request (for
    chat, once the model is known to be in the registry). *)
Theorem q_that_is_not_a_string_is_rejected q :
  is_string q = false ->
  (forall net modelId models temperature max_tokens,
      includes MODELS modelId = true ->
      serve (chat_handler GITHUB_TOKEN
               (mkHttpRequest modelId (mkQuery q models temperature max_tokens))) net
      = (Normal (q_required ("/api/models/" ++ modelId ++ "/chat?q=Hello world")), []))
  /\ (forall net modelId models temperature max_tokens,
         serve (compare_handler GITHUB_TOKEN
                  (mkHttpRequest modelId (mkQuery q models temperature max_tokens))) net
         = (Normal (q_required
              "/api/compare?q=Hello world&models=gpt-4o,Meta-Llama-3.1-8B-Instruct"),
            [])).
Proof.
  intros Hq. apply not_a_string_is_rejected in Hq. split; intros.
  - apply chat_missing_q; assumption.
  - apply compare_missing_q; assumption.
Qed.

(** X9.  A compare request with a query text but whose [models] is
    missing, empty or not a string is answered 400 with the report that
    [models] is required and the usage example; no outbound request is
    posted. *)
Theorem compare_requires_models net modelId qs models temperature max_tokens :
  qs <> EmptyString ->
  models = None \/ models = Some (QStr EmptyString) \/ is_string models = false ->
  serve (compare_handler GITHUB_TOKEN
           (mkHttpRequest modelId
              (mkQuery (Some (QStr qs)) models temperature max_tokens))) net
  = (Normal (mkHttpResponse 400
       (VObj [ ("error",
                VStr "Query parameter 'models' is required (comma-separated)");
               ("example",
                VStr "/api/compare?q=Hello world&models=gpt-4o,Meta-Llama-3.1-8B-Instruct") ])),
     []).
Proof.
  intros Hqs Hmodels.
  assert (Hq : required_string (Some (QStr qs)) = Some qs)
    by (apply required_string_Some; auto).
  assert (Hms : required_string models = None).
  { destruct Hmodels as [->|[->|H]]; [reflexivity|reflexivity|].
    apply not_a_string_is_rejected; exact H. }
  unfold serve, compare_handler. cbn [query]. rewrite Hq, Hms. reflexivity.
Qed.


(** X11.  In a compare response the result at position [i] is what the
    helper makes of the [i]-th exchange for the [i]-th model, and of
    nothing else: for a request that is served (the checks pass and the
    number parameters are converted), two networks that agree on that
    exchange give the same result at that position, whatever happens to
    the other calls. *)
Theorem compare_results_are_isolated
    net net' modelId qs ms temperature max_tokens t k i :
  qs <> EmptyString ->
  Forall (fun model => includes MODELS model = true) (modelsList ms) ->
  temp_of temperature = Normal t ->
  maxTok_of max_tokens = Normal k ->
  (i < List.length (modelsList ms))%nat ->
  net i = net' i ->
  let req := mkHttpRequest modelId
               (mkQuery (Some (QStr qs)) (Some (QStr ms)) temperature max_tokens) in
  nth i (results_of (serve (compare_handler GITHUB_TOKEN req) net)) VUndefined
  = value_in (net i) (nth i (modelsList ms) EmptyString) qs t k
  /\ nth i (results_of (serve (compare_handler GITHUB_TOKEN req) net)) VUndefined
     = nth i (results_of (serve (compare_handler GITHUB_TOKEN req) net')) VUndefined.
Proof.
  intros Hqs Hall Ht Hk Hi Hnet req.
  assert (Hq : required_string (Some (QStr qs)) = Some qs)
    by (apply required_string_Some; auto).
  assert (Hms : required_string (Some (QStr ms)) = Some ms).
  { apply required_string_Some. split; [reflexivity|].
    intros ->. inversion Hall as [|? ? Hbad _]. discriminate Hbad. }
  unfold req.
  rewrite !(compare_validated GITHUB_TOKEN _ modelId _ qs _ ms temperature
              max_tokens t k Hq Hms Hall Ht Hk).
  unfold results_of, res_json.
  cbn -[helper_value indexed_from modelsList temp_of maxTok_of nth List.map].
  rewrite !(nth_map_indexed _ _ _ EmptyString) by exact Hi.
  cbn [fst snd Nat.add]. rewrite Hnet. split; reflexivity.
Qed.

(** X12.  Comparing a single model of the registry is chatting with it.
    When the number parameters are converted, the one result of the
    compare response is the payload of the chat response to the same
    query, and both post the same request; only the status differs,
    compare answering 200 where chat may answer 500.  When a number
    parameter cannot be converted, both throw the same error and post
    nothing. *)
Theorem compare_of_one_model_is_chat net m qs temperature max_tokens :
  includes MODELS m = true ->
  qs <> EmptyString ->
  let chat := serve (chat_handler GITHUB_TOKEN
                       (mkHttpRequest m
                          (mkQuery (Some (QStr qs)) None temperature max_tokens)))
                    net in
  let compare := serve (compare_handler GITHUB_TOKEN
                          (mkHttpRequest EmptyString
                             (mkQuery (Some (QStr qs)) (Some (QStr m))
                                      temperature max_tokens)))
                       net in
  (forall t k,
      temp_of temperature = Normal t ->
      maxTok_of max_tokens = Normal k ->
      exists v,
        chat = (Normal (mkHttpResponse (chat_status v) v), [request_for m qs t k])
        /\ compare
           = (Normal (mkHttpResponse 200 (VObj [ ("results", VArr [v]) ])),
              [request_for m qs t k]))
  /\ (forall e,
         temp_of temperature = Throw e
         \/ (exists t, temp_of temperature = Normal t)
            /\ maxTok_of max_tokens = Throw e ->
         chat = (Throw e, []) /\ compare = (Throw e, [])).
Proof.
  intros Hm Hqs chat compare. unfold chat, compare.
  assert (Hq : required_string (Some (QStr qs)) = Some qs)
    by (apply required_string_Some; auto).
  assert (Hms : required_string (Some (QStr m)) = Some m)
    by (apply required_string_Some; split;
        [reflexivity|apply registry_has_no_empty_name; exact Hm]).
  assert (Hall : Forall (fun model => includes MODELS model = true) (modelsList m)).
  { rewrite (registry_entry_parses m Hm). repeat constructor. exact Hm. }
  split.
  - intros t k Ht Hk.
    rewrite (chat_validated GITHUB_TOKEN net m _ qs None temperature max_tokens
               t k Hm Hq Ht Hk).
    rewrite (compare_validated GITHUB_TOKEN net EmptyString _ qs _ m temperature
               max_tokens t k Hq Hms Hall Ht Hk).
    rewrite (registry_entry_parses m Hm).
    eexists. split; reflexivity.
  - intros e He.
    rewrite (chat_conversion_throws GITHUB_TOKEN net m _ qs None temperature
               max_tokens e Hm Hq He).
    rewrite (compare_conversion_throws GITHUB_TOKEN net EmptyString _ qs _ m
               temperature max_tokens e Hq Hms Hall He).
    split; reflexivity.
Qed.

(** X13.  The model list reads back what was joined: for every non-empty
    list of registry identifiers, joined with [,] or with [, ], the list is
    parsed back as it was, and the compare handler, when the number
    parameters are converted, serves exactly those models in that
    order. *)
Theorem joined_registry_names_are_accepted
    net modelId qs l sep temperature max_tokens t k :
  qs <> EmptyString ->
  l <> [] ->
  Forall (fun model => includes MODELS model = true) l ->
  sep = "," \/ sep = ", " ->
  temp_of temperature = Normal t ->
  maxTok_of max_tokens = Normal k ->
  modelsList (join sep l) = l
  /\ exists results,
       serve (compare_handler GITHUB_TOKEN
                (mkHttpRequest modelId
                   (mkQuery (Some (QStr qs)) (Some (QStr (join sep l)))
                            temperature max_tokens))) net
       = (Normal (mkHttpResponse 200 (VObj [ ("results", VArr results) ])),
          List.map (fun model => request_for model qs t k) l)
       /\ List.map (field "model") results
          = List.map (fun model => Some (VStr model)) l.
Proof.
  intros Hqs Hl Hall Hsep Ht Hk.
  assert (Hparse : modelsList (join sep l) = l).
  { destruct Hsep as [->| ->];
      [apply modelsList_join_comma|apply modelsList_join_comma_space]; assumption. }
  split; [exact Hparse|].
  assert (Hq : required_string (Some (QStr qs)) = Some qs)
    by (apply required_string_Some; auto).
  assert (Hms : required_string (Some (QStr (join sep l))) = Some (join sep l)).
  { apply required_string_Some. split; [reflexivity|].
    intros E. rewrite E in Hparse. rewrite <- Hparse in Hall.
    inversion Hall as [|? ? Hbad _]. discriminate Hbad. }
  assert (Hall' : Forall (fun model => includes MODELS model = true)
                         (modelsList (join sep l)))
    by (rewrite Hparse; exact Hall).
  rewrite (compare_validated GITHUB_TOKEN net modelId _ qs _ (join sep l)
             temperature max_tokens t k Hq Hms Hall' Ht Hk).
  rewrite Hparse. eexists. split; [reflexivity|].
  rewrite List.map_map.
  rewrite <- (map_snd_indexed (fun model => Some (VStr model)) l 0).
  apply map_ext. intros [j model]. apply helper_value_model.
Qed.

(** X14.  A model list with an empty entry (a leading, a trailing or a
    doubled comma) is turned away as a whole: 400 with the invalid-models
    report and no outbound request, even when every named model is in the
    registry. *)
Theorem empty_list_entry_is_rejected net modelId qs a b temperature max_tokens :
  qs <> EmptyString ->
  In EmptyString (modelsList a) \/ In EmptyString (modelsList b) ->
  serve (compare_handler GITHUB_TOKEN
           (mkHttpRequest modelId
              (mkQuery (Some (QStr qs)) (Some (QStr (a ++ "," ++ b)))
                       temperature max_tokens))) net
  = (Normal (invalid_models
       ("Invalid models: " ++ join ", " (invalid_of (modelsList (a ++ "," ++ b))))),
     []).
Proof.
  intros Hqs Hempty.
  assert (Hq : required_string (Some (QStr qs)) = Some qs)
    by (apply required_string_Some; auto).
  assert (Hms : required_string (Some (QStr (a ++ "," ++ b))) = Some (a ++ "," ++ b)%string)
    by (apply required_string_Some; split; [reflexivity|destruct a; discriminate]).
  apply (compare_invalid_models GITHUB_TOKEN net modelId _ qs _ _ _ _ Hq Hms).
  assert (Hin : In EmptyString (modelsList (a ++ "," ++ b))).
  { rewrite modelsList_app. apply in_or_app. exact Hempty. }
  pose proof (invalid_of_complete _ _ Hin eq_refl) as Hbad.
  intros E. rewrite E in Hbad. contradiction.
Qed.

(** X15.  Validation of a model list goes entry by entry: for two lists put
    together with a comma, the invalid identifiers reported are those of
    the first followed by those of the second, and the whole is served,
    when the number parameters are converted, exactly when neither has an
    invalid identifier. *)
Theorem invalid_reports_concatenate net modelId qs a b temperature max_tokens :
  qs <> EmptyString ->
  let bad := (invalid_of (modelsList a) ++ invalid_of (modelsList b))%list in
  let req := mkHttpRequest modelId
               (mkQuery (Some (QStr qs)) (Some (QStr (a ++ "," ++ b)))
                        temperature max_tokens) in
  (bad <> [] ->
   serve (compare_handler GITHUB_TOKEN req) net
   = (Normal (invalid_models ("Invalid models: " ++ join ", " bad)), []))
  /\ (bad = [] ->
      forall t k,
        temp_of temperature = Normal t ->
        maxTok_of max_tokens = Normal k ->
        exists results,
          serve (compare_handler GITHUB_TOKEN req) net
          = (Normal (mkHttpResponse 200 (VObj [ ("results", VArr results) ])),
             List.map (fun model => request_for model qs t k)
                      (modelsList a ++ modelsList b))).
Proof.
  intros Hqs bad req.
  assert (Hq : required_string (Some (QStr qs)) = Some qs)
    by (apply required_string_Some; auto).
  assert (Hms : required_string (Some (QStr (a ++ "," ++ b))) = Some (a ++ "," ++ b)%string)
    by (apply required_string_Some; split; [reflexivity|destruct a; discriminate]).
  assert (Hbad : invalid_of (modelsList (a ++ "," ++ b)) = bad)
    by (rewrite modelsList_app, invalid_of_app; reflexivity).
  unfold req. split; intros H.
  - rewrite (compare_invalid_models GITHUB_TOKEN net modelId _ qs _ _ _ _ Hq Hms)
      by (rewrite Hbad; exact H).
    rewrite Hbad. reflexivity.
  - intros t k Ht Hk.
    rewrite H in Hbad. apply invalid_of_nil in Hbad.
    rewrite (compare_validated GITHUB_TOKEN net modelId _ qs _ _ temperature
               max_tokens t k Hq Hms Hbad Ht Hk).
    rewrite modelsList_app. eexists. reflexivity.
Qed.

(** X16.  No identifier begins with the prefixes of two publisher rules,
    so the order in which [getPublisher] tries them does not matter: the
    rules tried in any other order give the same publisher. *)
Theorem publisher_rule_order_is_immaterial :
  (forall id p1 l1 p2 l2,
      In (p1, l1) publisher_rules -> In (p2, l2) publisher_rules ->
      String.prefix p1 id = true -> String.prefix p2 id = true ->
      p1 = p2 /\ l1 = l2)
  /\ (forall rules id,
         Permutation publisher_rules rules ->
         first_match rules id = getPublisher id).
Proof.
  split.
  - intros id p1 l1 p2 l2 H1 H2 A B.
    pose proof (publisher_rules_exclusive id p1 l1 p2 l2 H1 H2 A B) as E.
    injection E as -> ->. split; reflexivity.
  - intros rules id Hperm.
    change (getPublisher id) with (first_match publisher_rules id).
    destruct (first_match_spec rules id) as [(p & l & Hin & Hm & ->)|[Hnone ->]];
      destruct (first_match_spec publisher_rules id)
        as [(p' & l' & Hin' & Hm' & ->)|[Hnone' ->]].
    + apply (Permutation_in _ (Permutation_sym Hperm)) in Hin.
      pose proof (publisher_rules_exclusive id p l p' l' Hin Hin' Hm Hm') as E.
      injection E as _ ->. reflexivity.
    + apply (Permutation_in _ (Permutation_sym Hperm)) in Hin.
      rewrite (Hnone' p l Hin) in Hm. discriminate Hm.
    + apply (Permutation_in _ Hperm) in Hin'.
      rewrite (Hnone p' l' Hin') in Hm'. discriminate Hm'.
    + reflexivity.
Qed.



(** X18.  The publisher depends on the prefix only: an identifier that
    begins with the prefix of a rule gets the label of that rule whatever
    follows the prefix, and an identifier is [Unknown] exactly when it
    begins with none of the seven prefixes. *)
Theorem publisher_depends_on_the_prefix_only :
  (forall p label rest,
      In (p, label) publisher_rules -> getPublisher (p ++ rest) = label)
  /\ (forall id,
         getPublisher id = "Unknown"
         <-> forall p label, In (p, label) publisher_rules ->
                             String.prefix p id = false).
Proof.
  split.
  - intros p label rest Hin.
    change (getPublisher (p ++ rest)) with (first_match publisher_rules (p ++ rest)).
    assert (Hp : String.prefix p (p ++ rest) = true)
      by (apply prefix_app, prefix_refl).
    destruct (first_match_spec publisher_rules (p ++ rest))
      as [(p' & l' & Hin' & Hm' & ->)|[Hnone _]].
    + pose proof (publisher_rules_exclusive _ p' l' p label Hin' Hin Hm' Hp) as E.
      injection E as _ ->. reflexivity.
    + rewrite (Hnone p label Hin) in Hp. discriminate Hp.
  - intros id.
    change (getPublisher id) with (first_match publisher_rules id).
    destruct (first_match_spec publisher_rules id)
      as [(p' & l' & Hin' & Hm' & ->)|[Hnone ->]].
    + split.
      * intros ->. exfalso. unfold publisher_rules in Hin'. cbn [In] in Hin'.
        repeat (destruct Hin' as [Hin'|Hin']; [discriminate Hin'|]). contradiction.
      * intros Hnone. rewrite (Hnone p' l' Hin') in Hm'. discriminate Hm'.
    + split; [intros _; exact Hnone|reflexivity].
Qed.

End Beyond.

(** *** The token *)

Lemma helper_value_ignores_the_token tok tok' x model message t k :
  helper_value tok x model message t k = helper_value tok' x model message t k.
Proof.
  unfold helper_value, helper_result.
  destruct (reply x) as [r|e] eqn:Hr.
  2:{ rewrite !(helper_transport_failure _ model message t k x 0 [] e Hr).
      reflexivity. }
  destruct (ok r) eqn:Hok.
  - destruct (json r) as [result|e] eqn:Hj.
    2:{ rewrite !(helper_bad_json _ model message t k x 0 [] r e Hr Hok Hj).
        reflexivity. }
    destruct (nullish result) eqn:Hn.
    + destruct (first_content_nullish_throws result Hn) as [e He].
      rewrite !(helper_null_json _ model message t k x 0 [] r result e Hr Hok Hj He).
      reflexivity.
    + destruct (first_content_defined result Hn) as [c Hc].
      destruct (get_defined result "usage" Hn) as [u Hu].
      rewrite !(helper_success _ model message t k x 0 [] r result c u
                  Hr Hok Hj Hc Hu).
      reflexivity.
  - destruct (text r) as [b|e] eqn:Ht.
    + rewrite !(helper_remote_error _ model message t k x 0 [] r b Hr Hok Ht).
      reflexivity.
    + rewrite !(helper_remote_error_unread _ model message t k x 0 [] r e Hr Hok Ht).
      reflexivity.
Qed.

(** X19.  The token reaches the [Authorization] header of the outbound
    requests and nothing else.  Two runs of a handler on the same request
    under two tokens, whose calls meet the same exchanges (what the
    endpoint would reply to another token is outside this statement),
    send the client the same response or throw the same error, and their
    outbound requests have the same url, method and body; every outbound
    request carries the token of its run in the header. *)
Theorem token_reaches_the_Authorization_header_only tok tok' net net' req :
  (forall i, net i = net' i) ->
  let shape := fun rq : Request => (url rq, method rq, body rq) in
  let authorized := fun rq : Request =>
                      headers rq
                      = [ ("Authorization", ("Bearer " ++ tok)%string);
                          ("Content-Type", "application/json") ] in
  (fst (serve (chat_handler tok req) net) = fst (serve (chat_handler tok' req) net')
   /\ List.map shape (snd (serve (chat_handler tok req) net))
      = List.map shape (snd (serve (chat_handler tok' req) net'))
   /\ Forall authorized (snd (serve (chat_handler tok req) net)))
  /\ (fst (serve (compare_handler tok req) net)
      = fst (serve (compare_handler tok' req) net')
      /\ List.map shape (snd (serve (compare_handler tok req) net))
         = List.map shape (snd (serve (compare_handler tok' req) net'))
      /\ Forall authorized (snd (serve (compare_handler tok req) net))).
Proof.
  intros Hnet shape authorized.
  destruct req as [modelId [q models temperature max_tokens]].
  split.
  - destruct (includes MODELS modelId) eqn:Hm.
    2:{ rewrite !(chat_unknown_model _ _ modelId _ Hm).
        repeat split; constructor. }
    destruct (required_string q) as [qs|] eqn:Hq.
    2:{ rewrite !(chat_missing_q _ _ modelId q models temperature max_tokens Hm Hq).
        repeat split; constructor. }
    destruct (conversions_settle temperature max_tokens)
      as [(t & k & Ht & Hk)|[e He]].
    + rewrite !(chat_validated _ _ modelId q qs models temperature max_tokens
                  t k Hm Hq Ht Hk).
      cbn [fst snd]. rewrite <- (Hnet 0%nat).
      rewrite (helper_value_ignores_the_token tok tok').
      split; [reflexivity|]. split; [reflexivity|].
      repeat constructor.
    + rewrite !(chat_conversion_throws _ _ modelId q qs models temperature
                  max_tokens e Hm Hq He).
      repeat split; constructor.
  - destruct (required_string q) as [qs|] eqn:Hq.
    2:{ rewrite !(compare_missing_q _ _ modelId q models temperature max_tokens Hq).
        repeat split; constructor. }
    destruct (required_string models) as [ms|] eqn:Hms.
    2:{ unfold serve, compare_handler. cbn [query]. rewrite Hq, Hms.
        repeat split; constructor. }
    destruct (invalid_of (modelsList ms)) as [|bad rest] eqn:Hbad.
    2:{ rewrite !(compare_invalid_models _ _ modelId q qs models ms temperature
                    max_tokens Hq Hms) by (rewrite Hbad; discriminate).
        repeat split; constructor. }
    apply invalid_of_nil in Hbad.
    destruct (conversions_settle temperature max_tokens)
      as [(t & k & Ht & Hk)|[e He]].
    + rewrite !(compare_validated _ _ modelId q qs models ms temperature
                  max_tokens t k Hq Hms Hbad Ht Hk).
      cbn [fst snd].
      assert (E : List.map (fun im => helper_value tok (net (fst im)) (snd im) qs t k)
                           (indexed_from 0 (modelsList ms))
                  = List.map (fun im => helper_value tok' (net' (fst im)) (snd im) qs t k)
                             (indexed_from 0 (modelsList ms))).
      { apply map_ext. intros im. rewrite <- Hnet.
        apply helper_value_ignores_the_token. }
      rewrite E. split; [reflexivity|]. split.
      * rewrite !List.map_map. apply map_ext. reflexivity.
      * apply Forall_forall. intros rq Hin.
        apply in_map_iff in Hin as (model & <- & _). reflexivity.
    + rewrite !(compare_conversion_throws _ _ modelId q qs models ms temperature
                  max_tokens e Hq Hms Hbad He).
      repeat split; constructor.
Qed.

(** *** The same at concrete requests *)

(** X18 at a model that is not in the registry yet. *)
Lemma prefix_only_witness :
  In ("Phi-", "Microsoft") publisher_rules
  /\ getPublisher "Phi-4-mini-instruct" = "Microsoft".
Proof.
  assert (H : In ("Phi-", "Microsoft") publisher_rules)
    by (do 3 right; left; reflexivity).
  split; [exact H|].
  destruct publisher_depends_on_the_prefix_only as [Hprefix _].
  exact (Hprefix "Phi-" "Microsoft" "4-mini-instruct" H).
Defined.


(** X2 at the answered exchange of the sample network. *)
Lemma one_envelope_witness :
  field "response"
    (helper_value sample_token (sample_network 0%nat) "gpt-4o" "Hi"
       number_0_7 number_1000)
  = Some (VStr "Hi!")
  /\ (VStr "Hi!" = VStr EmptyString \/ truthy (VStr "Hi!") = true).
Proof.
  assert (H : field "response"
                (helper_value sample_token (sample_network 0%nat) "gpt-4o" "Hi"
                   number_0_7 number_1000)
              = Some (VStr "Hi!")) by reflexivity.
  split; [exact H|].
  destruct (helper_result_is_one_envelope sample_token "gpt-4o" "Hi"
              number_0_7 number_1000 (sample_network 0%nat))
    as (_ & _ & _ & _ & _ & Hresponse).
  exact (Hresponse (VStr "Hi!") H).
Defined.

(** X3 at an endpoint that cannot be reached. *)
Lemma transport_failure_witness :
  includes MODELS "gpt-4o" = true
  /\ "Hi" <> EmptyString
  /\ temp_of None = Normal number_0_7
  /\ maxTok_of None = Normal number_1000
  /\ reply unreachable = Throw (TypeError "fetch failed")
  /\ JS.message (TypeError "fetch failed") <> EmptyString
  /\ serve (chat_handler sample_token
              (mkHttpRequest "gpt-4o" (mkQuery (Some (QStr "Hi")) None None None)))
           (fun _ => unreachable)
     = (Normal (mkHttpResponse 500
          (VObj [ ("model", VStr "gpt-4o");
                  ("error", VStr "fetch failed");
                  ("responseTime", VNum (elapsed unreachable 0 1)) ])),
        [outbound_request sample_token "gpt-4o" "Hi" number_0_7 number_1000]).
Proof.
  assert (H1 : includes MODELS "gpt-4o" = true) by reflexivity.
  assert (H2 : "Hi" <> EmptyString) by discriminate.
  assert (H3 : reply unreachable = Throw (TypeError "fetch failed")) by reflexivity.
  assert (H4 : JS.message (TypeError "fetch failed") <> EmptyString) by discriminate.
  split; [exact H1|]. split; [exact H2|]. do 2 (split; [reflexivity|]).
  split; [exact H3|]. split; [exact H4|].
  exact (chat_reports_a_transport_failure sample_token (fun _ => unreachable)
           "gpt-4o" "Hi" None None None number_0_7 number_1000
           (TypeError "fetch failed") H1 H2 eq_refl eq_refl H3 H4).
Defined.

(** X4 at an endpoint that answers 200 with a page of HTML, and at one that
    answers 200 with [null]. *)
Lemma malformed_body_witness :
  let html := mkResponse true (Normal "<html>")
                (Throw (mkError "SyntaxError" "Unexpected token < in JSON")) in
  reply (answering html) = Normal html
  /\ ok html = true
  /\ json html = Throw (mkError "SyntaxError" "Unexpected token < in JSON")
  /\ helper_result sample_token (answering html) "gpt-4o" "Hi" number_0_7 number_1000
     = Normal (failure_envelope "gpt-4o" "Unexpected token < in JSON"
                 (elapsed (answering html) 0 2))
  /\ helper_result sample_token (answering (json_reply VNull)) "gpt-4o" "Hi"
       number_0_7 number_1000
     = Normal (failure_envelope "gpt-4o"
                 "Cannot read properties of null (reading 'choices')"
                 (elapsed (answering (json_reply VNull)) 0 2)).
Proof.
  intros html. do 3 (split; [reflexivity|]). split.
  - destruct (malformed_success_body_is_a_failure sample_token "gpt-4o" "Hi"
                number_0_7 number_1000 (answering html) html eq_refl eq_refl)
      as [Hbad _].
    exact (Hbad _ eq_refl).
  - destruct (malformed_success_body_is_a_failure sample_token "gpt-4o" "Hi"
                number_0_7 number_1000 (answering (json_reply VNull))
                (json_reply VNull) eq_refl eq_refl)
      as [_ Hnull].
    exact (Hnull eq_refl).
Defined.

(** X5 at a chat request whose call is turned away with a body. *)
Lemma chat_status_witness :
  includes MODELS "gpt-4o" = true
  /\ "Hi" <> EmptyString
  /\ temp_of (Some (QStr "0.2")) = Normal (parseFloat "0.2")
  /\ maxTok_of (Some (QStr "64")) = Normal (number_of_Z 64)
  /\ exists response,
       fst (serve (chat_handler sample_token
                     (mkHttpRequest "gpt-4o"
                        (mkQuery (Some (QStr "Hi")) None
                                 (Some (QStr "0.2")) (Some (QStr "64")))))
                  (fun _ => busy))
       = Normal response
       /\ status response = 500%nat.
Proof.
  assert (H1 : includes MODELS "gpt-4o" = true) by reflexivity.
  assert (H2 : "Hi" <> EmptyString) by discriminate.
  assert (H3 : temp_of (Some (QStr "0.2")) = Normal (parseFloat "0.2"))
    by reflexivity.
  assert (H4 : maxTok_of (Some (QStr "64")) = Normal (number_of_Z 64))
    by (vm_compute; reflexivity).
  split; [exact H1|]. split; [exact H2|]. split; [exact H3|]. split; [exact H4|].
  destruct (chat_status_follows_the_error_text sample_token (fun _ => busy)
              "gpt-4o" "Hi" None (Some (QStr "0.2")) (Some (QStr "64"))
              (parseFloat "0.2") (number_of_Z 64) H1 H2 H3 H4)
    as (response & Hrun & Hpayload & H500 & _).
  exists response. rewrite Hrun. split; [reflexivity|].
  apply H500. exists "Too Many Requests". rewrite Hpayload.
  split; [reflexivity|discriminate].
Defined.

(** X8 at [?q=a&q=b]. *)
Lemma repeated_q_witness :
  is_string (Some (QArr [QStr "a"; QStr "b"])) = false
  /\ includes MODELS "gpt-4o" = true
  /\ serve (chat_handler sample_token
              (mkHttpRequest "gpt-4o"
                 (mkQuery (Some (QArr [QStr "a"; QStr "b"])) None None None)))
           sample_network
     = (Normal (q_required "/api/models/gpt-4o/chat?q=Hello world"), [])
  /\ serve (compare_handler sample_token
              (mkHttpRequest EmptyString
                 (mkQuery (Some (QArr [QStr "a"; QStr "b"])) (Some (QStr "gpt-4o"))
                          None None)))
           sample_network
     = (Normal (q_required
          "/api/compare?q=Hello world&models=gpt-4o,Meta-Llama-3.1-8B-Instruct"), []).
Proof.
  assert (H1 : is_string (Some (QArr [QStr "a"; QStr "b"])) = false) by reflexivity.
  assert (H2 : includes MODELS "gpt-4o" = true) by reflexivity.
  split; [exact H1|]. split; [exact H2|].
  destruct (q_that_is_not_a_string_is_rejected sample_token _ H1) as [Hchat Hcompare].
  split; [apply (Hchat sample_network "gpt-4o" None None None H2)|apply Hcompare].
Defined.

(** X9 at [GET /api/compare?q=Hi]. *)
Lemma compare_requires_models_witness :
  "Hi" <> EmptyString
  /\ (@None qvalue = None \/ @None qvalue = Some (QStr EmptyString)
      \/ is_string (@None qvalue) = false)
  /\ exists response,
       serve (compare_handler sample_token
                (mkHttpRequest EmptyString
                   (mkQuery (Some (QStr "Hi")) None None None)))
             sample_network
       = (Normal response, [])
       /\ status response = 400%nat.
Proof.
  assert (H1 : "Hi" <> EmptyString) by discriminate.
  assert (H2 : @None qvalue = None \/ @None qvalue = Some (QStr EmptyString)
               \/ is_string (@None qvalue) = false) by (left; reflexivity).
  split; [exact H1|]. split; [exact H2|].
  eexists. split;
    [exact (compare_requires_models sample_token sample_network EmptyString "Hi"
              None None None H1 H2)
    |reflexivity].
Defined.


(** X11 at two networks that differ on the second call only. *)
Lemma isolation_witness :
  let other := fun k : nat => match k with
                              | O => sample_network 0%nat
                              | S _ => unreachable
                              end in
  let req := mkHttpRequest EmptyString
               (mkQuery (Some (QStr "Hi")) (Some (QStr "gpt-4o,gpt-4o-mini"))
                        None None) in
  "Hi" <> EmptyString
  /\ Forall (fun model => includes MODELS model = true)
            (modelsList "gpt-4o,gpt-4o-mini")
  /\ temp_of None = Normal number_0_7
  /\ maxTok_of None = Normal number_1000
  /\ (0 < List.length (modelsList "gpt-4o,gpt-4o-mini"))%nat
  /\ sample_network 0%nat = other 0%nat
  /\ nth 0 (results_of (serve (compare_handler sample_token req) sample_network))
         VUndefined
     = nth 0 (results_of (serve (compare_handler sample_token req) other)) VUndefined.
Proof.
  intros other req.
  assert (H1 : "Hi" <> EmptyString) by discriminate.
  assert (H2 : Forall (fun model => includes MODELS model = true)
                      (modelsList "gpt-4o,gpt-4o-mini")) by (repeat constructor).
  assert (H3 : (0 < List.length (modelsList "gpt-4o,gpt-4o-mini"))%nat)
    by (vm_compute; lia).
  assert (H4 : sample_network 0%nat = other 0%nat) by reflexivity.
  split; [exact H1|]. split; [exact H2|]. do 2 (split; [reflexivity|]).
  split; [exact H3|]. split; [exact H4|].
  destruct (compare_results_are_isolated sample_token sample_network other
              EmptyString "Hi" "gpt-4o,gpt-4o-mini" None None
              number_0_7 number_1000 0%nat H1 H2 eq_refl eq_refl H3 H4)
    as [_ Hsame].
  exact Hsame.
Defined.

(** X12 at the model [gpt-4o], without number parameters and with a
    [temperature] that cannot be converted. *)
Lemma compare_of_one_model_witness :
  includes MODELS "gpt-4o" = true
  /\ "Hi" <> EmptyString
  /\ (exists v,
        serve (chat_handler sample_token
                 (mkHttpRequest "gpt-4o" (mkQuery (Some (QStr "Hi")) None None None)))
              sample_network
        = (Normal (mkHttpResponse (chat_status v) v),
           [outbound_request sample_token "gpt-4o" "Hi" number_0_7 number_1000])
        /\ serve (compare_handler sample_token
                    (mkHttpRequest EmptyString
                       (mkQuery (Some (QStr "Hi")) (Some (QStr "gpt-4o")) None None)))
                 sample_network
           = (Normal (mkHttpResponse 200 (VObj [ ("results", VArr [v]) ])),
              [outbound_request sample_token "gpt-4o" "Hi" number_0_7 number_1000]))
  /\ serve (compare_handler sample_token
              (mkHttpRequest EmptyString
                 (mkQuery (Some (QStr "Hi")) (Some (QStr "gpt-4o"))
                          toString_object None)))
           sample_network
     = (Throw (TypeError "Cannot convert object to primitive value"), []).
Proof.
  assert (H1 : includes MODELS "gpt-4o" = true) by reflexivity.
  assert (H2 : "Hi" <> EmptyString) by discriminate.
  split; [exact H1|]. split; [exact H2|]. split.
  - destruct (compare_of_one_model_is_chat sample_token sample_network "gpt-4o" "Hi"
                None None H1 H2) as [Hserved _].
    exact (Hserved number_0_7 number_1000 eq_refl eq_refl).
  - destruct (compare_of_one_model_is_chat sample_token sample_network "gpt-4o" "Hi"
                toString_object None H1 H2) as [_ Hthrown].
    destruct (Hthrown (TypeError "Cannot convert object to primitive value")
                (or_introl eq_refl)) as [_ Hcompare].
    exact Hcompare.
Defined.

(** X13 at two names joined with a comma and a space. *)
Lemma joined_names_witness :
  "Hi" <> EmptyString
  /\ ["gpt-4o"; "Mistral-small"] <> []
  /\ Forall (fun model => includes MODELS model = true) ["gpt-4o"; "Mistral-small"]
  /\ ((", " : string) = "," \/ (", " : string) = ", ")
  /\ temp_of None = Normal number_0_7
  /\ maxTok_of None = Normal number_1000
  /\ modelsList "gpt-4o, Mistral-small" = ["gpt-4o"; "Mistral-small"]
  /\ exists results,
       serve (compare_handler sample_token
                (mkHttpRequest EmptyString
                   (mkQuery (Some (QStr "Hi")) (Some (QStr "gpt-4o, Mistral-small"))
                            None None)))
             sample_network
       = (Normal (mkHttpResponse 200 (VObj [ ("results", VArr results) ])),
          [outbound_request sample_token "gpt-4o" "Hi" number_0_7 number_1000;
           outbound_request sample_token "Mistral-small" "Hi"
             number_0_7 number_1000]).
Proof.
  assert (H1 : "Hi" <> EmptyString) by discriminate.
  assert (H2 : ["gpt-4o"; "Mistral-small"] <> []) by discriminate.
  assert (H3 : Forall (fun model => includes MODELS model = true)
                      ["gpt-4o"; "Mistral-small"]) by (repeat constructor).
  assert (H4 : (", " : string) = "," \/ (", " : string) = ", ") by (right; reflexivity).
  split; [exact H1|]. split; [exact H2|]. split; [exact H3|]. split; [exact H4|].
  do 2 (split; [reflexivity|]).
  destruct (joined_registry_names_are_accepted sample_token sample_network
              EmptyString "Hi" ["gpt-4o"; "Mistral-small"] ", " None None
              number_0_7 number_1000 H1 H2 H3 H4 eq_refl eq_refl)
    as [Hparse (results & Hrun & _)].
  split; [exact Hparse|].
  exists results. exact Hrun.
Defined.

(** X14 at a list that ends with a comma. *)
Lemma trailing_comma_witness :
  "Hi" <> EmptyString
  /\ (In EmptyString (modelsList "gpt-4o") \/ In EmptyString (modelsList EmptyString))
  /\ exists error,
       serve (compare_handler sample_token
                (mkHttpRequest EmptyString
                   (mkQuery (Some (QStr "Hi")) (Some (QStr "gpt-4o,")) None None)))
             sample_network
       = (Normal (invalid_models error), []).
Proof.
  assert (H1 : "Hi" <> EmptyString) by discriminate.
  assert (H2 : In EmptyString (modelsList "gpt-4o")
               \/ In EmptyString (modelsList EmptyString))
    by (right; left; reflexivity).
  split; [exact H1|]. split; [exact H2|].
  eexists.
  exact (empty_list_entry_is_rejected sample_token sample_network EmptyString "Hi"
           "gpt-4o" EmptyString None None H1 H2).
Defined.

(** X15 at two lists that each name an unknown model. *)
Lemma reports_concatenate_witness :
  "Hi" <> EmptyString
  /\ (invalid_of (modelsList "gpt-4o,bogus-1") ++ invalid_of (modelsList "bogus-2")
      <> [])%list
  /\ serve (compare_handler sample_token
              (mkHttpRequest EmptyString
                 (mkQuery (Some (QStr "Hi")) (Some (QStr "gpt-4o,bogus-1,bogus-2"))
                          None None)))
           sample_network
     = (Normal (invalid_models "Invalid models: bogus-1, bogus-2"), []).
Proof.
  assert (H1 : "Hi" <> EmptyString) by discriminate.
  assert (H2 : (invalid_of (modelsList "gpt-4o,bogus-1")
                ++ invalid_of (modelsList "bogus-2") <> [])%list)
    by (vm_compute; discriminate).
  split; [exact H1|]. split; [exact H2|].
  destruct (invalid_reports_concatenate sample_token sample_network EmptyString "Hi"
              "gpt-4o,bogus-1" "bogus-2" None None H1)
    as [Hbad _].
  exact (Hbad H2).
Defined.

(** X16 at the rules in reverse order. *)
Lemma rule_order_witness :
  Permutation publisher_rules (rev publisher_rules)
  /\ first_match (rev publisher_rules) "Mistral-small" = getPublisher "Mistral-small".
Proof.
  assert (H : Permutation publisher_rules (rev publisher_rules))
    by apply Permutation_rev.
  split; [exact H|].
  destruct publisher_rule_order_is_immaterial as [_ Horder].
  exact (Horder (rev publisher_rules) "Mistral-small" H).
Defined.


(** X19 at a chat request turned away by the endpoint, under two tokens. *)
Lemma token_witness :
  (forall i : nat, (fun _ : nat => busy) i = (fun _ : nat => busy) i)
  /\ fst (serve (chat_handler sample_token
                   (mkHttpRequest "gpt-4o" (mkQuery (Some (QStr "Hi")) None None None)))
                (fun _ => busy))
     = fst (serve (chat_handler "another-token"
                     (mkHttpRequest "gpt-4o"
                        (mkQuery (Some (QStr "Hi")) None None None)))
                  (fun _ => busy))
  /\ Forall (fun rq => headers rq
                       = [ ("Authorization", "Bearer another-token");
                           ("Content-Type", "application/json") ])
            (snd (serve (chat_handler "another-token"
                           (mkHttpRequest "gpt-4o"
                              (mkQuery (Some (QStr "Hi")) None None None)))
                        (fun _ => busy))).
Proof.
  assert (H : forall i : nat, (fun _ : nat => busy) i = (fun _ : nat => busy) i)
    by reflexivity.
  split; [exact H|].
  destruct (token_reaches_the_Authorization_header_only sample_token "another-token"
              (fun _ => busy) (fun _ => busy)
              (mkHttpRequest "gpt-4o" (mkQuery (Some (QStr "Hi")) None None None)) H)
    as [(Hsame & _ & _) _].
  split; [exact Hsame|].
  destruct (token_reaches_the_Authorization_header_only "another-token" sample_token
              (fun _ => busy) (fun _ => busy)
              (mkHttpRequest "gpt-4o" (mkQuery (Some (QStr "Hi")) None None None)) H)
    as [(_ & _ & Hauth) _].
  exact Hauth.
Defined.

End Kire.
